(** * Keysight 81160A driver: a shallow embedding and its properties

    Source: [pymeasure/instruments/keysight/keysight81160A.py].

    The driver computes on Python floats (IEEE 754 binary64).  They are
    modelled by [spec_float] at precision 53 and exponent bound 1024, so
    every arithmetic step below is the correctly rounded one the
    interpreter performs.  State (the channel's cached waveform and what it
    sent to the transport) is threaded through a small state-and-exception
    monad. *)

From Stdlib Require Import ZArith List String Bool Lia.
From Stdlib Require Import Floats.SpecFloat.
From Stdlib Require Import DecimalString.
Import ListNotations.
Open Scope Z_scope.

(** ** Binary64 numbers *)

Module F64.

Definition prec : Z := 53.
Definition emax : Z := 1024.

Definition float : Type := spec_float.

Definition zero : float := S754_zero false.
Definition nan : float := S754_nan.

(** Conversion of an integer, rounded to nearest even (exact below 2^53). *)
Definition of_Z (z : Z) : float := binary_normalize prec emax z 0 false.

Definition add : float -> float -> float := SFadd prec emax.
Definition sub : float -> float -> float := SFsub prec emax.
Definition mul : float -> float -> float := SFmul prec emax.
Definition div : float -> float -> float := SFdiv prec emax.
Definition abs : float -> float := SFabs.
Definition opp : float -> float := SFopp.

Definition eqb : float -> float -> bool := SFeqb.
Definition ltb : float -> float -> bool := SFltb.
Definition leb : float -> float -> bool := SFleb.
(** [x > y] and [x >= y] as Python evaluates them: false on NaN. *)
Definition gtb (x y : float) : bool := ltb y x.
Definition geb (x y : float) : bool := leb y x.

(** A decimal literal [n / d] with exact integers [n] and [d]: the
    correctly rounded quotient is the double the Python parser yields
    (e.g. [1e-6] is [ratio 1 1000000], [3.1] is [ratio 31 10]). *)
Definition ratio (n d : Z) : float := div (of_Z n) (of_Z d).

Definition is_nan (x : float) : bool :=
  match x with S754_nan => true | _ => false end.

Definition is_finite (x : float) : bool :=
  match x with S754_zero _ | S754_finite _ _ _ => true | _ => false end.

Definition is_zero (x : float) : bool :=
  match x with S754_zero _ => true | _ => false end.

(** The integer part of a finite float, toward zero. *)
Definition trunc_finite (s : bool) (m : positive) (e : Z) : Z :=
  let a := if 0 <=? e then Z.shiftl (Zpos m) e else Z.shiftr (Zpos m) (- e) in
  if s then - a else a.

(** The nearest integer of a finite float, ties to the even one. *)
Definition nearest_even_finite (s : bool) (m : positive) (e : Z) : Z :=
  let a :=
    if 0 <=? e then Z.shiftl (Zpos m) e
    else
      let k := - e in
      let q := Z.shiftr (Zpos m) k in
      let r := Zpos m - Z.shiftl q k in
      match Z.compare (2 * r) (Z.shiftl 1 k) with
      | Lt => q
      | Gt => q + 1
      | Eq => if Z.even q then q else q + 1
      end in
  if s then - a else a.

End F64.

(** ** Python values that are not rendered here

    An f-string is kept as the list of its pieces: the driver hands it to
    [str.format]/[%]-formatting, which belongs to the interpreter. *)

Inductive frag : Type :=
| Lit (s : string)          (* literal text *)
| FmtInt (z : Z)            (* {z} for an int *)
| FmtFloat (x : F64.float)  (* {x} for a float *)
| Template (set_command : string) (ch : option Z) (value : F64.float).
                            (* set_command.format(ch=ch) % value *)

Definition fstring : Type := list frag.

Inductive exn : Type :=
| ValueError (msg : fstring)
| ZeroDivisionError
| OverflowError
| IndexError.

Definition result (A : Type) : Type := (exn + A)%type.

Definition ok {A : Type} (a : A) : result A := inr a.
Definition raise {A : Type} (e : exn) : result A := inl e.

Definition rbind {A B : Type} (r : result A) (k : A -> result B) : result B :=
  match r with
  | inl e => inl e
  | inr a => k a
  end.

Definition is_error {A : Type} (r : result A) : bool :=
  match r with inl _ => true | inr _ => false end.

Declare Scope result_scope.
Delimit Scope result_scope with result.
Notation "'let?' x ':=' r 'in' k" := (rbind r (fun x => k))
  (at level 10, x name, r at level 100, k at level 200) : result_scope.

(** ** Python builtins used by the driver *)

Module Py.

(** [int(x)] for a float: truncation toward zero; NaN and the infinities
    raise. *)
Definition int (x : F64.float) : result Z :=
  match x with
  | S754_zero _ => ok 0
  | S754_finite s m e => ok (F64.trunc_finite s m e)
  | S754_nan => raise (ValueError [Lit "cannot convert float NaN to integer"])
  | S754_infinity _ => raise OverflowError
  end.

(** [round(x)] for a float, no [ndigits]: an int, ties to even. *)
Definition round (x : F64.float) : result Z :=
  match x with
  | S754_zero _ => ok 0
  | S754_finite s m e => ok (F64.nearest_even_finite s m e)
  | S754_nan => raise (ValueError [Lit "cannot convert float NaN to integer"])
  | S754_infinity _ => raise OverflowError
  end.

(** [str(z)] for an int. *)
Definition str (z : Z) : string := NilZero.string_of_int (Z.to_int z).

(** [x / y] on floats: Python raises on a zero divisor. *)
Definition truediv (x y : F64.float) : result F64.float :=
  if F64.is_zero y then raise ZeroDivisionError else ok (F64.div x y).

(** [sep.join(parts)]. *)
Definition join (sep : string) (parts : list string) : string :=
  String.concat sep parts.

(** [c.upper()] for one ASCII character: the letters a-z move to A-Z. *)
Definition upper_char (c : Ascii.ascii) : Ascii.ascii :=
  let n := Ascii.nat_of_ascii c in
  if ((97 <=? n) && (n <=? 122))%nat then Ascii.ascii_of_nat (n - 32) else c.

(** [s.upper()] for a str of ASCII characters. *)
Fixpoint upper (s : string) : string :=
  match s with
  | EmptyString => EmptyString
  | String c s' => String (upper_char c) (upper s')
  end.

(** [map(f, xs)] consumed to the end, stopping at the first exception. *)
Fixpoint map {A B : Type} (f : A -> result B) (xs : list A) : result (list B) :=
  match xs with
  | [] => ok []
  | x :: xs' =>
      (let? y := f x in
       let? ys := map f xs' in
       ok (y :: ys))%result
  end.

End Py.

(** ** The formatter [array_to_string] *)

Definition array_to_string (array : list F64.float) : result string :=
  (let? parts := Py.map (fun x => (let? r := Py.round x in ok (Py.str r))%result) array in
   ok (Py.join "," parts))%result.

(** ** The numpy operations used by the driver *)

Module Np.

(** [np.maximum(a, b)] on scalars: NaN propagates (which of two equal
    values is kept, as for zeros of either sign, plays no role below). *)
Definition maximum (a b : F64.float) : F64.float :=
  if F64.is_nan a then a else if F64.gtb a b then a else b.

(** [a.max()]: a reduction with no identity. *)
Definition max (a : list F64.float) : result F64.float :=
  match a with
  | [] => raise (ValueError
      [Lit "zero-size array to reduction operation maximum which has no identity"])
  | x :: xs => ok (fold_left maximum xs x)
  end.

(** [np.round(x)] with no decimals: the nearest integral float, ties to
    even, the sign of a zero result kept. *)
Definition round (x : F64.float) : F64.float :=
  match x with
  | S754_finite s m e =>
      if 0 <=? e then x
      else match F64.nearest_even_finite s m e with
           | 0 => S754_zero s
           | z => F64.of_Z z
           end
  | _ => x
  end.

(** The result of [astype(int)] on one element: the integer when the
    float is finite and fits 64 bits; otherwise the conversion is
    undefined in C and numpy stores a platform-chosen integer (with a
    RuntimeWarning, no exception). *)
Variant int64 : Type :=
| Exact (z : Z)
| Invalid.

Definition astype_int (x : F64.float) : int64 :=
  match x with
  | S754_zero _ => Exact 0
  | S754_finite s m e =>
      let z := F64.trunc_finite s m e in
      if (- 2 ^ 63 <=? z) && (z <? 2 ^ 63) then Exact z else Invalid
  | _ => Invalid
  end.

(** [np.zeros(n)]. *)
Definition zeros (n : Z) : list F64.float := repeat F64.zero (Z.to_nat n).

(** [np.arange(0, num)] as floats. *)
Definition arange (num : Z) : list F64.float :=
  List.map (fun i => F64.of_Z (Z.of_nat i)) (seq 0 (Z.to_nat num)).

Fixpoint set_last (y : list F64.float) (v : F64.float) : list F64.float :=
  match y with
  | [] => []
  | [_] => [v]
  | x :: y' => x :: set_last y' v
  end.

(** [np.linspace(start, stop, num)] with the endpoint included. *)
Definition linspace (start stop : F64.float) (num : Z) : result (list F64.float) :=
  if num <? 0 then
    raise (ValueError [Lit "Number of samples, "; FmtInt num; Lit ", must be non-negative."])
  else
    let div := num - 1 in
    let delta := F64.sub stop start in
    let y := arange num in
    let y :=
      if 0 <? div then
        let step := F64.div delta (F64.of_Z div) in
        if F64.eqb step F64.zero then
          List.map (fun yi => F64.mul (F64.div yi (F64.of_Z div)) delta) y
        else List.map (fun yi => F64.mul yi step) y
      else List.map (fun yi => F64.mul yi delta) y in
    let y := List.map (fun yi => F64.add yi start) y in
    ok (if 1 <? num then set_last y stop else y).

(** A slice bound [i] on an array of length [n], as Python clips it. *)
Definition norm_index (n i : Z) : Z :=
  if i <? 0 then Z.max (i + n) 0 else Z.min i n.

(** [points[a:b] = values]: same length, or one value broadcast. *)
Definition set_slice (points : list F64.float) (a b : Z) (values : list F64.float)
  : result (list F64.float) :=
  let n := Z.of_nat (List.length points) in
  let lo := norm_index n a in
  let hi := Z.max lo (norm_index n b) in
  let len := Z.to_nat (hi - lo) in
  if (List.length values =? len)%nat then
    ok (firstn (Z.to_nat lo) points ++ values ++ skipn (Z.to_nat hi) points)
  else
    match values with
    | [v] => ok (firstn (Z.to_nat lo) points ++ repeat v len ++ skipn (Z.to_nat hi) points)
    | _ => raise (ValueError [Lit "could not broadcast input array"])
    end.

(** [points[a:b] = v] for a scalar; [b = None] is [points[a:] = v]. *)
Definition fill_slice (points : list F64.float) (a : Z) (b : option Z) (v : F64.float)
  : list F64.float :=
  let n := Z.of_nat (List.length points) in
  let lo := norm_index n a in
  let hi := Z.max lo (match b with Some b' => norm_index n b' | None => n end) in
  firstn (Z.to_nat lo) points ++ repeat v (Z.to_nat (hi - lo)) ++ skipn (Z.to_nat hi) points.

(** [points[i] = v]. *)
Definition set_item (points : list F64.float) (i : Z) (v : F64.float)
  : result (list F64.float) :=
  let n := Z.of_nat (List.length points) in
  let j := if i <? 0 then i + n else i in
  if (0 <=? j) && (j <? n) then
    ok (firstn (Z.to_nat j) points ++ v :: skipn (Z.to_nat j + 1) points)
  else raise IndexError.

End Np.

(** ** Module constants (lines 32-54 of the driver)

    A range is the two-element list [[min, max]] of the source, kept as a
    pair. *)

Definition FREQUENCY_SIN_RANGE : F64.float * F64.float :=
  (F64.ratio 1 1000000, F64.of_Z 500000000).
Definition FREQUENCY_RANGE : F64.float * F64.float :=
  (F64.ratio 1 1000000, F64.of_Z 330000000).
Definition TRIGGER_COUNT : F64.float * F64.float :=
  (F64.of_Z 1, F64.of_Z 2147483647).
Definition MAX_VOLTAGE : F64.float := F64.of_Z 5.
Definition SIN_AMPL_BORDER : F64.float := F64.of_Z 3.
Definition MAX_DAC_VALUE : Z := 8191.

(** ** Instrument state and the transport

    The transport is an external collaborator: what the driver passes to
    its [write] and [write_binary_values] primitives is recorded, oldest
    first.  Failures inside the transport are outside this model. *)

Inductive sent : Type :=
| Write (command : fstring)
| WriteBinaryValues (command : fstring) (values : list Np.int64)
                    (datatype : string) (is_big_endian : bool).

(** The two channels made by [Instrument.ChannelCreator] (lines 295-296). *)
Inductive channel : Type := ch_1 | ch_2.

Definition id (self : channel) : Z :=
  match self with ch_1 => 1 | ch_2 => 2 end.

Definition channel_eqb (a b : channel) : bool :=
  match a, b with
  | ch_1, ch_1 | ch_2, ch_2 => true
  | _, _ => false
  end.

Record instrument : Type := {
  _waveform_volatile : channel -> option (list F64.float);
  transport : list sent
}.

(** State and exceptions: an exception keeps the state reached so far. *)
Definition M (A : Type) : Type := instrument -> result A * instrument.

Definition ret {A : Type} (a : A) : M A := fun st => (ok a, st).

Definition bind {A B : Type} (c : M A) (k : A -> M B) : M B :=
  fun st =>
    match c st with
    | (inl e, st') => (inl e, st')
    | (inr a, st') => k a st'
    end.

Definition throw {A : Type} (e : exn) : M A := fun st => (raise e, st).

Definition lift {A : Type} (r : result A) : M A := fun st => (r, st).

Declare Scope monad_scope.
Delimit Scope monad_scope with monad.
Notation "x <- c ;; k" := (bind c (fun x => k))
  (at level 61, c at next level, right associativity) : monad_scope.
Notation "c ;; k" := (bind c (fun _ => k))
  (at level 61, right associativity) : monad_scope.

Definition send (m : sent) (st : instrument) : instrument :=
  {| _waveform_volatile := _waveform_volatile st;
     transport := transport st ++ [m] |}.

Definition write (command : fstring) : M unit :=
  fun st => (ok tt, send (Write command) st).

Definition write_binary_values (command : fstring) (values : list Np.int64)
    (datatype : string) (is_big_endian : bool) : M unit :=
  fun st => (ok tt, send (WriteBinaryValues command values datatype is_big_endian) st).

Definition set_waveform_volatile (self : channel) (data : list F64.float) : M unit :=
  fun st =>
    (ok tt,
     {| _waveform_volatile :=
          fun c => if channel_eqb c self then Some data else _waveform_volatile st c;
        transport := transport st |}).

(** What an operation added to the transport. *)
Definition initial : instrument :=
  {| _waveform_volatile := fun _ => None; transport := [] |}.

(** ** The channel class [Keysight81160AChannel] *)

Module Keysight81160AChannel.

(** Lines 203-213. *)
Definition _preprocess_waveform (data : list F64.float) : result (list Np.int64) :=
  (let? data_max := Np.max data in
   let data_normed := List.map (fun x => F64.div x data_max) data in
   let data_int :=
     List.map (fun x => Np.astype_int (Np.round (F64.mul x (F64.of_Z MAX_DAC_VALUE))))
              data_normed in
   ok data_int)%result.

(** The [waveform_volatile] setter, lines 224-238. *)
Definition waveform_volatile (self : channel) (waveform : list F64.float) : M unit :=
  (set_waveform_volatile self waveform ;;
   waveform_int <- lift (_preprocess_waveform waveform) ;;
   write_binary_values [Lit ":DATA"; FmtInt (id self); Lit ":DAC VOLATILE,"]
                       waveform_int "h" true)%monad.

(** Lines 282-284. *)
Definition _check_voltages (amplitude offset : F64.float) : M unit :=
  if F64.gtb (F64.add (F64.abs amplitude) (F64.abs offset)) MAX_VOLTAGE then
    throw (ValueError [Lit "Amplitude + offset exceed maximal voltage of ";
                       FmtFloat MAX_VOLTAGE; Lit " V."])
  else ret tt.

(** Lines 286-291; [FREQUENCY_RANGE[-1]] is the upper bound. *)
Definition _check_sin_params (frequency amplitude : F64.float) : M unit :=
  if F64.gtb frequency (snd FREQUENCY_RANGE) && F64.gtb amplitude SIN_AMPL_BORDER then
    throw (ValueError [Lit "Frequency of higher than "; FmtFloat (snd FREQUENCY_RANGE);
                       Lit " Hz is only supported for sin with";
                       Lit " amplitude below "; FmtFloat SIN_AMPL_BORDER; Lit " V."])
  else ret tt.

(** Lines 258-280. *)
Definition apply_dc (self : channel) (voltage : F64.float) : M unit :=
  write [Lit ":APPL"; FmtInt (id self); Lit ":DC DEF, DEF, "; FmtFloat voltage].

Definition apply_noise (self : channel) (amplitude offset : F64.float) : M unit :=
  (_check_voltages amplitude offset ;;
   write [Lit ":APPL"; FmtInt (id self); Lit ":NOIS DEF, ";
          FmtFloat amplitude; Lit ", "; FmtFloat offset])%monad.

Definition apply_pulse (self : channel) (frequency amplitude offset : F64.float) : M unit :=
  (_check_voltages amplitude offset ;;
   write [Lit ":APPL"; FmtInt (id self); Lit ":PULS "; FmtFloat frequency; Lit ", ";
          FmtFloat amplitude; Lit ", "; FmtFloat offset])%monad.

Definition apply_sin (self : channel) (frequency amplitude offset : F64.float) : M unit :=
  (_check_voltages amplitude offset ;;
   _check_sin_params frequency amplitude ;;
   write [Lit ":APPL"; FmtInt (id self); Lit ":SIN "; FmtFloat frequency; Lit ", ";
          FmtFloat amplitude; Lit ", "; FmtFloat offset])%monad.

Definition apply_square (self : channel) (frequency amplitude offset : F64.float) : M unit :=
  (_check_voltages amplitude offset ;;
   write [Lit ":APPL"; FmtInt (id self); Lit ":SQU "; FmtFloat frequency; Lit ", ";
          FmtFloat amplitude; Lit ", "; FmtFloat offset])%monad.

Definition apply_user_waveform (self : channel) (frequency amplitude offset : F64.float)
  : M unit :=
  (_check_voltages amplitude offset ;;
   write [Lit ":APPL"; FmtInt (id self); Lit ":USER "; FmtFloat frequency; Lit ", ";
          FmtFloat amplitude; Lit ", "; FmtFloat offset])%monad.

(** The [waveform_volatile] getter, lines 215-222: the cached array.
    [None] stands for the attribute never assigned, where Python raises
    AttributeError. *)
Definition get_waveform_volatile (self : channel) (st : instrument)
  : option (list F64.float) :=
  _waveform_volatile st self.

(** [self.write(command)] on a channel is the framework's [Channel.write]:
    before sending it substitutes the channel placeholder in the finished
    text with [str.format_map].  That substitution is framework code outside
    the driver file and is the parameter [insert_id]; it leaves text without
    braces as it is, and interprets or rejects a brace.  The commands built
    from numbers only never hold a brace and go through [write]; the two
    commands below hold a caller-supplied str. *)
Definition channel_write (insert_id : string -> result string) (command : string)
  : M unit :=
  fun st =>
    match insert_id command with
    | inl e => (raise e, st)
    | inr text => write [Lit text] st
    end.


(** Lines 250-256. *)
Definition delete_waveform (insert_id : string -> result string) (self : channel)
    (name : string) : M unit :=
  channel_write insert_id (":DATA" ++ Py.str (id self) ++ ":DEL " ++ Py.upper name)%string.

End Keysight81160AChannel.

(** ** The setting registry

    The property machinery ([Instrument.control]) and the validator
    [strict_range] live in the instrument framework, not in the driver
    file; the driver only declares templates and value ranges. *)

Module Registry.

(** A range-typed setting: its write template and its [values]. *)
Record control : Type := {
  set_command : string;
  values : F64.float * F64.float
}.

Definition in_range (value : F64.float) (values : F64.float * F64.float) : bool :=
  F64.leb (fst values) value && F64.leb value (snd values).

(** Modelled from the spec: the range validator [strict_range] of the
    framework's validators module.  "Range-typed settings: fail if value
    is outside [min, max] (inclusive)"; the failure is "a domain error
    identifying the offending value and the violated constraint". *)
Definition strict_range (value : F64.float) (values : F64.float * F64.float)
  : result F64.float :=
  if in_range value values then ok value
  else raise (ValueError [Lit "Value of "; FmtFloat value; Lit " is not in range [";
                          FmtFloat (fst values); Lit ","; FmtFloat (snd values); Lit "]"]).

(** Modelled from the spec: the [set] of a setting made by
    [Instrument.control].  "validates the input against the declared
    domain"; "On success, formats the set-command template (substituting
    channel index and value with the declared numeric format) and
    transmits it"; a validation failure "must prevent transmission". *)
Definition set (c : control) (ch : option Z) (value : F64.float) : M unit :=
  (v <- lift (strict_range value (values c)) ;;
   write [Template (set_command c) ch v])%monad.

End Registry.

Module ChannelSettings.

(** Lines 62-64. *)
Definition frequency : Registry.control :=
  {| Registry.set_command := ":FREQ{ch} %f";
     Registry.values := FREQUENCY_SIN_RANGE |}.

(** Lines 115-117: the burst-state write template. *)
Definition burst_state_set_command : string := ":BURS{ch}:STAT %s".

(** Lines 191-201. *)
Definition trigger_count : Registry.control :=
  {| Registry.set_command := ":TRIG{ch}:COUN %d";
     Registry.values := TRIGGER_COUNT |}.

Definition set_frequency (self : channel) (value : F64.float) : M unit :=
  Registry.set frequency (Some (id self)) value.

Definition set_trigger_count (self : channel) (value : F64.float) : M unit :=
  Registry.set trigger_count (Some (id self)) value.

End ChannelSettings.

(** ** The device class [Keysight81160A] (lines 294-314) *)

Module Keysight81160A.

(** Line 299 overrides the range only; the write template is inherited
    from the base driver and is taken as a parameter. *)
Definition frequency (inherited_set_command : string) : Registry.control :=
  {| Registry.set_command := inherited_set_command;
     Registry.values := FREQUENCY_SIN_RANGE |}.

Definition set_frequency (inherited_set_command : string) (value : F64.float) : M unit :=
  Registry.set (frequency inherited_set_command) None value.

End Keysight81160A.

(** ** The pulse synthesizer, lines 322-361

    The [plot] argument only draws the result and is left out. *)

Definition max_dac (pulse_voltage dc_voltage : F64.float) : Z :=
  let max_dac := 2 ^ 13 - 1 in
  if F64.ltb pulse_voltage F64.zero && F64.leb dc_voltage F64.zero
  then - max_dac else max_dac.

(** Line 327. *)
Definition dc_dac (pulse_voltage dc_voltage : F64.float) : result Z :=
  (let? q := Py.truediv dc_voltage pulse_voltage in
   Py.int (F64.mul q (F64.of_Z (max_dac pulse_voltage dc_voltage))))%result.

Definition total_num : Z := 20000.
Definition rise_num : Z := 100 / 30.
Definition hold_num : Z := (500 / 3) * 100 / 84.

(** Lines 332-334. *)
Definition fall_num (pulse_voltage dc_voltage : F64.float) : result Z :=
  (let? r := Py.truediv (F64.of_Z rise_num) pulse_voltage in
   Py.int (F64.mul r (F64.sub pulse_voltage dc_voltage)))%result.

Definition pulse_rise_start : Z := 100.
Definition pulse_rise_end : Z := pulse_rise_start + rise_num.
Definition pulse_hold_start : Z := pulse_rise_end.
Definition pulse_hold_end : Z := pulse_hold_start + hold_num.
Definition pulse_fall_start : Z := pulse_hold_end.

Definition generate_pulse_sequence (pulse_voltage dc_voltage : F64.float)
    (return_to_zero : bool) : result (list F64.float) :=
  (let max_dac := max_dac pulse_voltage dc_voltage in
   let? dc_dac := dc_dac pulse_voltage dc_voltage in
   let? fall_num := fall_num pulse_voltage dc_voltage in
   let points := Np.zeros total_num in
   let pulse_fall_end := pulse_fall_start + fall_num in
   let? rise := Np.linspace (F64.of_Z 0) (F64.of_Z max_dac) rise_num in
   let? points := Np.set_slice points pulse_rise_start pulse_rise_end rise in
   let points := Np.fill_slice points pulse_hold_start (Some pulse_hold_end)
                               (F64.of_Z max_dac) in
   let? fall := Np.linspace (F64.of_Z max_dac) (F64.of_Z dc_dac) fall_num in
   let? points := Np.set_slice points pulse_fall_start pulse_fall_end fall in
   let points := Np.fill_slice points pulse_fall_end None (F64.of_Z dc_dac) in
   let? points :=
     if return_to_zero then Np.set_item points (-1) F64.zero else ok points in
   ok points)%result.

(** [points[i]] for an index within bounds. *)
Definition item (points : list F64.float) (i : Z) : F64.float :=
  nth (Z.to_nat i) points F64.nan.

(** * Properties *)

Import Keysight81160AChannel.

(** ** Apply operations *)

Definition budget_message : fstring :=
  [Lit "Amplitude + offset exceed maximal voltage of "; FmtFloat MAX_VOLTAGE; Lit " V."].

(** The budget test of [_check_voltages], as the code evaluates it. *)
Definition over_budget (amplitude offset : F64.float) : bool :=
  F64.gtb (F64.add (F64.abs amplitude) (F64.abs offset)) MAX_VOLTAGE.

(** A write of the burst-state setting (template of lines 115-117). *)
Definition is_burst_state_write (m : sent) : bool :=
  match m with
  | Write [Template t _ _] => String.eqb t ChannelSettings.burst_state_set_command
  | _ => false
  end.

(** The binary block command of the volatile upload (line 234). *)
Definition dac_volatile_command (self : channel) : fstring :=
  [Lit ":DATA"; FmtInt (id self); Lit ":DAC VOLATILE,"].

(** The error of [a.max()] on an empty array. *)
Definition empty_max_error : exn :=
  ValueError [Lit "zero-size array to reduction operation maximum which has no identity"].



(** The delete command of [delete_waveform] (line 256), as rendered. *)
Definition delete_command (self : channel) (name : string) : string :=
  (":DATA" ++ Py.str (id self) ++ ":DEL " ++ Py.upper name)%string.

(** The characters a format string treats specially. *)
Definition is_brace (c : Ascii.ascii) : bool :=
  ((Ascii.nat_of_ascii c =? 123) || (Ascii.nat_of_ascii c =? 125))%nat.

Fixpoint has_brace (s : string) : bool :=
  match s with
  | EmptyString => false
  | String c s' => is_brace c || has_brace s'
  end.

(** What is used of [str.format_map]: text without braces is unchanged. *)
Definition keeps_plain_text (insert_id : string -> result string) : Prop :=
  forall s : string, has_brace s = false -> insert_id s = inr s.

Definition is_ascii_char (c : Ascii.ascii) : bool :=
  (Ascii.nat_of_ascii c <? 128)%nat.

Fixpoint is_ascii (s : string) : bool :=
  match s with
  | EmptyString => true
  | String c s' => is_ascii_char c && is_ascii s'
  end.

Lemma check_voltages_over (amplitude offset : F64.float) (st : instrument) :
  over_budget amplitude offset = true ->
  _check_voltages amplitude offset st = (inl (ValueError budget_message), st).
Proof.
  unfold over_budget, _check_voltages. intros ->. reflexivity.
Qed.

Lemma check_voltages_within (amplitude offset : F64.float) (st : instrument) :
  over_budget amplitude offset = false ->
  _check_voltages amplitude offset st = (inr tt, st).
Proof.
  unfold over_budget, _check_voltages. intros ->. reflexivity.
Qed.

Lemma bind_raise {A B : Type} (c : M A) (k : A -> M B) (st st' : instrument) (e : exn) :
  c st = (inl e, st') -> bind c k st = (inl e, st').
Proof. unfold bind. intros ->. reflexivity. Qed.

Lemma bind_ok {A B : Type} (c : M A) (k : A -> M B) (st st' : instrument) (a : A) :
  c st = (inr a, st') -> bind c k st = k a st'.
Proof. unfold bind. intros ->. reflexivity. Qed.

(** C2. When [abs(amplitude) + abs(offset) > 5.0] (the test the code
    evaluates), each of [apply_noise], [apply_pulse], [apply_sin],
    [apply_square] and [apply_user_waveform] raises the ValueError whose
    message carries [MAX_VOLTAGE] (5.0 V), and the instrument state, the
    transport record included, is what it was: nothing is written. *)
Theorem apply_over_budget_raises_and_writes_nothing :
  forall (self : channel) (frequency amplitude offset : F64.float) (st : instrument),
    F64.gtb (F64.add (F64.abs amplitude) (F64.abs offset)) (F64.of_Z 5) = true ->
    let failed :=
      (inl (ValueError [Lit "Amplitude + offset exceed maximal voltage of ";
                        FmtFloat (F64.of_Z 5); Lit " V."]), st) in
    apply_noise self amplitude offset st = failed /\
    apply_pulse self frequency amplitude offset st = failed /\
    apply_sin self frequency amplitude offset st = failed /\
    apply_square self frequency amplitude offset st = failed /\
    apply_user_waveform self frequency amplitude offset st = failed.
Proof.
  intros self frequency amplitude offset st H failed.
  assert (Hc := check_voltages_over amplitude offset st H).
  unfold apply_noise, apply_pulse, apply_sin, apply_square, apply_user_waveform.
  repeat split; apply bind_raise; exact Hc.
Qed.

Lemma apply_over_budget_witness :
  let st := initial in
  let failed :=
    (inl (ValueError [Lit "Amplitude + offset exceed maximal voltage of ";
                      FmtFloat (F64.of_Z 5); Lit " V."]), st) in
  apply_noise ch_1 (F64.of_Z 3) (F64.of_Z (-3)) st = failed /\
  apply_pulse ch_1 (F64.of_Z 1000) (F64.of_Z 3) (F64.of_Z (-3)) st = failed /\
  apply_sin ch_1 (F64.of_Z 1000) (F64.of_Z 3) (F64.of_Z (-3)) st = failed /\
  apply_square ch_1 (F64.of_Z 1000) (F64.of_Z 3) (F64.of_Z (-3)) st = failed /\
  apply_user_waveform ch_1 (F64.of_Z 1000) (F64.of_Z 3) (F64.of_Z (-3)) st = failed.
Proof.
  intros st failed.
  apply (apply_over_budget_raises_and_writes_nothing
           ch_1 (F64.of_Z 1000) (F64.of_Z 3) (F64.of_Z (-3)) st).
  vm_compute. reflexivity.
Defined.

(** C4. Once the voltage-budget check has passed, [apply_sin] raises the
    ValueError naming 330 MHz and 3.0 V whenever [frequency > 330e6] and
    [amplitude > 3.0], for every offset, writing nothing; in particular it
    fails at frequency 331e6, amplitude 3.1, while at frequency 331e6,
    amplitude 3.0 it succeeds and issues the one [:APPL<id>:SIN] command. *)
Theorem apply_sin_frequency_amplitude_border :
  forall (self : channel) (frequency amplitude offset : F64.float) (st : instrument),
    F64.gtb (F64.add (F64.abs amplitude) (F64.abs offset)) (F64.of_Z 5) = false ->
    let failed :=
      (inl (ValueError [Lit "Frequency of higher than "; FmtFloat (F64.of_Z 330000000);
                        Lit " Hz is only supported for sin with";
                        Lit " amplitude below "; FmtFloat (F64.of_Z 3); Lit " V."]), st) in
    (F64.gtb frequency (F64.of_Z 330000000) = true ->
     F64.gtb amplitude (F64.of_Z 3) = true ->
     apply_sin self frequency amplitude offset st = failed)
    /\ (frequency = F64.of_Z 331000000 -> amplitude = F64.ratio 31 10 ->
        apply_sin self frequency amplitude offset st = failed)
    /\ (frequency = F64.of_Z 331000000 -> amplitude = F64.of_Z 3 ->
        apply_sin self frequency amplitude offset st =
          (inr tt,
           send (Write [Lit ":APPL"; FmtInt (id self); Lit ":SIN ";
                        FmtFloat (F64.of_Z 331000000); Lit ", ";
                        FmtFloat (F64.of_Z 3); Lit ", "; FmtFloat offset]) st)).
Proof.
  intros self frequency amplitude offset st Hb failed.
  assert (Hc := check_voltages_within amplitude offset st Hb).
  assert (Hgen : F64.gtb frequency (F64.of_Z 330000000) = true ->
                 F64.gtb amplitude (F64.of_Z 3) = true ->
                 apply_sin self frequency amplitude offset st = failed).
  { intros Hf Ha. unfold apply_sin.
    rewrite (bind_ok _ _ _ _ _ Hc).
    apply bind_raise. unfold _check_sin_params.
    change (snd FREQUENCY_RANGE) with (F64.of_Z 330000000).
    change SIN_AMPL_BORDER with (F64.of_Z 3).
    rewrite Hf, Ha. reflexivity. }
  split; [exact Hgen | split].
  - intros Hf Ha. apply Hgen; [rewrite Hf | rewrite Ha]; vm_compute; reflexivity.
  - intros Hf Ha. unfold apply_sin.
    rewrite (bind_ok _ _ _ _ _ Hc). subst frequency amplitude. reflexivity.
Qed.

Lemma apply_sin_border_witness :
  apply_sin ch_1 (F64.of_Z 331000000) (F64.ratio 31 10) F64.zero initial =
    (inl (ValueError [Lit "Frequency of higher than "; FmtFloat (F64.of_Z 330000000);
                      Lit " Hz is only supported for sin with";
                      Lit " amplitude below "; FmtFloat (F64.of_Z 3); Lit " V."]),
     initial)
  /\ apply_sin ch_1 (F64.of_Z 331000000) (F64.ratio 301 100) (F64.ratio 195 100) initial =
    (inl (ValueError [Lit "Frequency of higher than "; FmtFloat (F64.of_Z 330000000);
                      Lit " Hz is only supported for sin with";
                      Lit " amplitude below "; FmtFloat (F64.of_Z 3); Lit " V."]),
     initial)
  /\ apply_sin ch_1 (F64.of_Z 331000000) (F64.of_Z 3) F64.zero initial =
    (inr tt,
     send (Write [Lit ":APPL"; FmtInt 1; Lit ":SIN ";
                  FmtFloat (F64.of_Z 331000000); Lit ", ";
                  FmtFloat (F64.of_Z 3); Lit ", "; FmtFloat F64.zero]) initial).
Proof.
  assert (H31 : F64.gtb (F64.add (F64.abs (F64.ratio 31 10)) (F64.abs F64.zero))
                        (F64.of_Z 5) = false) by (vm_compute; reflexivity).
  assert (H301 : F64.gtb (F64.add (F64.abs (F64.ratio 301 100))
                                  (F64.abs (F64.ratio 195 100)))
                         (F64.of_Z 5) = false) by (vm_compute; reflexivity).
  assert (H30 : F64.gtb (F64.add (F64.abs (F64.of_Z 3)) (F64.abs F64.zero))
                        (F64.of_Z 5) = false) by (vm_compute; reflexivity).
  destruct (apply_sin_frequency_amplitude_border
              ch_1 (F64.of_Z 331000000) (F64.ratio 31 10) F64.zero initial H31)
    as (_ & Hfail & _).
  destruct (apply_sin_frequency_amplitude_border
              ch_1 (F64.of_Z 331000000) (F64.ratio 301 100) (F64.ratio 195 100)
              initial H301) as (Hgen & _ & _).
  destruct (apply_sin_frequency_amplitude_border
              ch_1 (F64.of_Z 331000000) (F64.of_Z 3) F64.zero initial H30)
    as (_ & _ & Hok).
  split; [apply Hfail; reflexivity | split].
  - apply Hgen; vm_compute; reflexivity.
  - apply Hok; reflexivity.
Defined.

(** C10. [apply_dc] has no validation at all: for every voltage, whatever
    its magnitude, it returns normally and its only effect is the one
    [:APPL<id>:DC DEF, DEF, <voltage>] write. *)
Theorem apply_dc_always_writes :
  forall (self : channel) (voltage : F64.float) (st : instrument),
    apply_dc self voltage st =
      (inr tt,
       send (Write [Lit ":APPL"; FmtInt (id self); Lit ":DC DEF, DEF, ";
                    FmtFloat voltage]) st).
Proof. intros self voltage st. reflexivity. Qed.

(** ** The formatter *)

(** C5 as stated fails: on [1.4, 2.6, -3.5] the result is not "1,3,-3". *)
Lemma array_to_string_example_is_not_1_3_m3 :
  array_to_string [F64.ratio 14 10; F64.ratio 26 10; F64.opp (F64.ratio 35 10)]
  <> inr "1,3,-3"%string.
Proof. vm_compute. discriminate. Qed.

(** C5, amended. [array_to_string([1.4, 2.6, -3.5])] is "1,3,-4": each
    element is rounded to the nearest integer, ties to even ([-3.5] lies
    halfway between -4 and -3 and goes to the even -4), then the decimal
    renderings are joined with commas. *)
Theorem array_to_string_example :
  array_to_string [F64.ratio 14 10; F64.ratio 26 10; F64.opp (F64.ratio 35 10)]
  = inr "1,3,-4"%string
  /\ Py.round (F64.opp (F64.ratio 35 10)) = inr (-4).
Proof. split; vm_compute; reflexivity. Qed.

(** ** Waveform upload *)

(** C1, the code at the failing input: for the samples [-2.0, 1.0] the
    maximum is 1.0, not the peak magnitude 2.0, so [_preprocess_waveform]
    yields [-16382, 8191] and the setter hands these to the binary write;
    -16382 lies below -8191 (and fits the 16-bit datatype). *)
Theorem preprocess_waveform_leaves_dac_span :
  _preprocess_waveform [F64.of_Z (-2); F64.of_Z 1]
    = inr [Np.Exact (-16382); Np.Exact 8191]
  /\ waveform_volatile ch_1 [F64.of_Z (-2); F64.of_Z 1] initial
    = (inr tt,
       send (WriteBinaryValues (dac_volatile_command ch_1)
                               [Np.Exact (-16382); Np.Exact 8191] "h" true)
            (snd (set_waveform_volatile ch_1 [F64.of_Z (-2); F64.of_Z 1] initial)))
  /\ (-16382 <? - MAX_DAC_VALUE) = true
  /\ (- 2 ^ 15 <=? -16382) = true.
Proof. repeat split. Qed.

Lemma eqb_zero_inv (x : F64.float) :
  F64.eqb x F64.zero = true -> exists s : bool, x = S754_zero s.
Proof.
  destruct x as [s | s | | s m e]; simpl; intros H.
  - exists s. reflexivity.
  - destruct s; discriminate H.
  - discriminate H.
  - destruct s; discriminate H.
Qed.

Lemma div_by_zero_not_finite (x : F64.float) (s : bool) :
  F64.is_finite (F64.div x (S754_zero s)) = false.
Proof. destruct x as [sx | sx | | sx m e]; reflexivity. Qed.

Lemma not_finite_encodes_invalid (y : F64.float) :
  F64.is_finite y = false ->
  Np.astype_int (Np.round (F64.mul y (F64.of_Z MAX_DAC_VALUE))) = Np.Invalid.
Proof.
  destruct y as [sy | sy | | sy m e]; simpl; intros H; try discriminate H.
  - destruct sy; reflexivity.
  - reflexivity.
Qed.

Lemma map_const_repeat {A B : Type} (b : B) (xs : list A) :
  List.map (fun _ => b) xs = repeat b (List.length xs).
Proof.
  induction xs as [| x xs IH]; simpl; [reflexivity | now rewrite IH].
Qed.

Lemma preprocess_zero_max (data : list F64.float) (data_max : F64.float) :
  Np.max data = inr data_max ->
  F64.eqb data_max F64.zero = true ->
  _preprocess_waveform data = inr (repeat Np.Invalid (List.length data)).
Proof.
  intros Hmax Hz. unfold _preprocess_waveform. rewrite Hmax. simpl.
  destruct (eqb_zero_inv _ Hz) as [s ->].
  unfold ok. f_equal. rewrite List.map_map.
  rewrite <- map_const_repeat. apply List.map_ext. intros x.
  apply not_finite_encodes_invalid, div_by_zero_not_finite.
Qed.


(** The same defect for every array whose maximum is zero: nothing checks
    the divisor, the setter raises no error of its own, every normalised
    sample is NaN or an infinity, and the binary write is issued with one
    invalid integer cast per sample. *)
Theorem waveform_zero_max_reaches_transport :
  forall (self : channel) (data : list F64.float) (data_max : F64.float)
         (st : instrument),
    Np.max data = inr data_max ->
    F64.eqb data_max F64.zero = true ->
    waveform_volatile self data st
      = (inr tt,
         send (WriteBinaryValues (dac_volatile_command self)
                                 (repeat Np.Invalid (List.length data)) "h" true)
              (snd (set_waveform_volatile self data st)))
    /\ Forall (fun x => F64.is_finite (F64.div x data_max) = false) data.
Proof.
  intros self data data_max st Hmax Hz. split.
  - unfold waveform_volatile, bind, lift, set_waveform_volatile.
    rewrite (preprocess_zero_max data data_max Hmax Hz). reflexivity.
  - destruct (eqb_zero_inv _ Hz) as [s ->].
    apply Forall_forall. intros x _. apply div_by_zero_not_finite.
Qed.

Lemma waveform_zero_max_witness :
  waveform_volatile ch_2 [F64.of_Z (-1); F64.zero] initial
    = (inr tt,
       send (WriteBinaryValues (dac_volatile_command ch_2)
                               [Np.Invalid; Np.Invalid] "h" true)
            (snd (set_waveform_volatile ch_2 [F64.of_Z (-1); F64.zero] initial))).
Proof.
  assert (Hmax : Np.max [F64.of_Z (-1); F64.zero] = inr F64.zero)
    by (vm_compute; reflexivity).
  assert (Hz : F64.eqb F64.zero F64.zero = true) by reflexivity.
  exact (proj1 (waveform_zero_max_reaches_transport
                  ch_2 [F64.of_Z (-1); F64.zero] F64.zero initial Hmax Hz)).
Defined.

(** ** Settings *)

Lemma set_spec (c : Registry.control) (ch : option Z) (value : F64.float)
    (st : instrument) :
  Registry.set c ch value st =
    if Registry.in_range value (Registry.values c)
    then (inr tt, send (Write [Template (Registry.set_command c) ch value]) st)
    else (inl (ValueError [Lit "Value of "; FmtFloat value; Lit " is not in range [";
                           FmtFloat (fst (Registry.values c)); Lit ",";
                           FmtFloat (snd (Registry.values c)); Lit "]"]), st).
Proof.
  unfold Registry.set, Registry.strict_range, bind, lift.
  destruct (Registry.in_range value (Registry.values c)); reflexivity.
Qed.

(** C6 as stated fails: 400 MHz lies outside [1e-6, 330e6], yet setting the
    device-level frequency to it is accepted and written. *)
Lemma device_frequency_400MHz_accepted :
  Registry.in_range (F64.of_Z 400000000) (F64.ratio 1 1000000, F64.of_Z 330000000)
    = false
  /\ Keysight81160A.set_frequency "FREQ %f" (F64.of_Z 400000000) initial
    = (inr tt, send (Write [Template "FREQ %f" None (F64.of_Z 400000000)]) initial).
Proof. split; vm_compute; reflexivity. Qed.

(** C6, amended. The device class takes the same range as the channels:
    setting the device-level frequency fails exactly when the value is
    outside [1e-6, 500e6] Hz, and so does setting a channel's frequency
    (bounds included; a NaN is outside). *)
Theorem frequency_set_fails_iff_outside_500MHz :
  forall (inherited_set_command : string) (self : channel) (value : F64.float)
         (st : instrument),
    let inside :=
      F64.leb (F64.ratio 1 1000000) value && F64.leb value (F64.of_Z 500000000) in
    is_error (fst (Keysight81160A.set_frequency inherited_set_command value st))
      = negb inside
    /\ is_error (fst (ChannelSettings.set_frequency self value st)) = negb inside.
Proof.
  intros cmd self value st inside.
  unfold Keysight81160A.set_frequency, ChannelSettings.set_frequency.
  rewrite !set_spec.
  change (Registry.in_range value (Registry.values (Keysight81160A.frequency cmd)))
    with inside.
  change (Registry.in_range value (Registry.values ChannelSettings.frequency))
    with inside.
  destruct inside; split; reflexivity.
Qed.

(** C9 as stated fails: for the value 0 no command is issued at all (the
    range check rejects it), so "exactly one command for every value" does
    not hold. *)
Lemma trigger_count_zero_issues_no_command :
  let r := ChannelSettings.set_trigger_count ch_1 (F64.of_Z 0) initial in
  is_error (fst r) = true /\ transport (snd r) = [].
Proof. split; vm_compute; reflexivity. Qed.

(** C9, amended. For every value within [1, 2147483647] setting
    [trigger_count] issues exactly one command, the trigger-count write
    itself; for every other value it raises the range error and issues
    none.  In both cases no burst-state write is issued. *)
Theorem trigger_count_set_effect :
  forall (self : channel) (value : F64.float) (st : instrument),
    let inside :=
      F64.leb (F64.of_Z 1) value && F64.leb value (F64.of_Z 2147483647) in
    let r := ChannelSettings.set_trigger_count self value st in
    let issued := if inside
                  then [Write [Template ":TRIG{ch}:COUN %d" (Some (id self)) value]]
                  else [] in
    is_error (fst r) = negb inside
    /\ transport (snd r) = transport st ++ issued
    /\ _waveform_volatile (snd r) = _waveform_volatile st
    /\ existsb is_burst_state_write issued = false.
Proof.
  intros self value st inside r issued. subst r issued.
  unfold ChannelSettings.set_trigger_count. rewrite set_spec.
  change (Registry.in_range value (Registry.values ChannelSettings.trigger_count))
    with inside.
  destruct inside; simpl; repeat split; try reflexivity.
  symmetry. apply app_nil_r.
Qed.

(** ** The pulse synthesizer *)

(** C8. [generate_pulse_sequence(5, 2, return_to_zero=True)] returns 20000
    samples; the samples at indices 0 to 99 are 0 and so is the one at
    index 100; the rise segment (indices 100 to 102: 0, 4095.5, 8191) is
    non-decreasing; the last sample is 0. *)
Theorem generate_pulse_sequence_5_2_return_to_zero :
  match generate_pulse_sequence (F64.of_Z 5) (F64.of_Z 2) true with
  | inl _ => False
  | inr points =>
      Z.of_nat (List.length points) = 20000
      /\ firstn 100 points = repeat F64.zero 100
      /\ item points 100 = F64.zero
      /\ firstn (Z.to_nat rise_num) (skipn 100 points)
         = [F64.zero; F64.ratio 8191 2; F64.of_Z 8191]
      /\ F64.leb (item points 100) (item points 101) = true
      /\ F64.leb (item points 101) (item points 102) = true
      /\ item points (20000 - 1) = F64.zero
  end.
Proof. vm_compute. repeat split. Qed.

Lemma norm_index_bounds (n i : Z) : 0 <= n -> 0 <= Np.norm_index n i <= n.
Proof.
  intros Hn. unfold Np.norm_index.
  destruct (i <? 0) eqn:Hi; [apply Z.ltb_lt in Hi | apply Z.ltb_ge in Hi]; lia.
Qed.

Lemma splice_length (points middle : list F64.float) (lo hi : Z) :
  0 <= lo <= hi -> hi <= Z.of_nat (List.length points) ->
  List.length middle = Z.to_nat (hi - lo) ->
  List.length (firstn (Z.to_nat lo) points ++ middle ++ skipn (Z.to_nat hi) points)
  = List.length points.
Proof.
  intros Hlo Hhi Hm.
  rewrite !length_app, length_firstn, length_skipn, Hm. lia.
Qed.

Lemma set_slice_length (points values points' : list F64.float) (a b : Z) :
  Np.set_slice points a b values = inr points' ->
  List.length points' = List.length points.
Proof.
  unfold Np.set_slice.
  set (n := Z.of_nat (List.length points)).
  assert (Hn : 0 <= n) by (subst n; lia).
  pose proof (norm_index_bounds n a Hn) as Ha.
  pose proof (norm_index_bounds n b Hn) as Hb.
  set (lo := Np.norm_index n a) in *.
  set (hi := Z.max lo (Np.norm_index n b)).
  intros H.
  destruct (List.length values =? Z.to_nat (hi - lo))%nat eqn:Hlen.
  - apply Nat.eqb_eq in Hlen. injection H as <-.
    apply splice_length; subst hi n; lia.
  - destruct values as [| v [| w values]]; try discriminate H.
    injection H as <-.
    apply splice_length; [subst hi; lia | subst hi n; lia | apply repeat_length].
Qed.

Lemma fill_slice_length (points : list F64.float) (a : Z) (b : option Z) (v : F64.float) :
  List.length (Np.fill_slice points a b v) = List.length points.
Proof.
  unfold Np.fill_slice.
  set (n := Z.of_nat (List.length points)).
  assert (Hn : 0 <= n) by (subst n; lia).
  pose proof (norm_index_bounds n a Hn) as Ha.
  set (lo := Np.norm_index n a) in *.
  assert (Hb : 0 <= match b with Some b' => Np.norm_index n b' | None => n end <= n).
  { destruct b as [b' |]; [apply norm_index_bounds; exact Hn | lia]. }
  set (bb := match b with Some b' => Np.norm_index n b' | None => n end) in *.
  apply splice_length; [lia | subst n; lia | apply repeat_length].
Qed.

Lemma fill_tail_item (points : list F64.float) (a i : Z) (v : F64.float) :
  0 <= a -> a <= i < Z.of_nat (List.length points) ->
  item (Np.fill_slice points a None v) i = v.
Proof.
  intros Ha Hi. unfold item, Np.fill_slice.
  set (n := Z.of_nat (List.length points)) in *.
  assert (Hlo : Np.norm_index n a = a).
  { unfold Np.norm_index. destruct (a <? 0) eqn:E; [apply Z.ltb_lt in E |]; lia. }
  rewrite Hlo. replace (Z.max a n) with n by lia.
  rewrite app_nth2; rewrite length_firstn; [| lia].
  replace (Init.Nat.min (Z.to_nat a) (List.length points)) with (Z.to_nat a) by lia.
  rewrite app_nth1; [| rewrite repeat_length; lia].
  apply nth_repeat_lt. lia.
Qed.

Lemma set_item_other (points points' : list F64.float) (idx : Z) (v : F64.float) (i : Z) :
  Np.set_item points idx v = inr points' ->
  0 <= i < Z.of_nat (List.length points) ->
  i <> (if idx <? 0 then idx + Z.of_nat (List.length points) else idx) ->
  item points' i = item points i.
Proof.
  unfold Np.set_item, item.
  remember (Z.of_nat (List.length points)) as n eqn:Hn.
  remember (if idx <? 0 then idx + n else idx) as j eqn:Hj.
  intros H Hi Hne.
  destruct ((0 <=? j) && (j <? n)) eqn:Hin; [| discriminate H].
  apply andb_true_iff in Hin. destruct Hin as [H0 H1].
  apply Z.leb_le in H0. apply Z.ltb_lt in H1.
  injection H as <-.
  destruct (Z_lt_le_dec i j) as [Hlt | Hge].
  - rewrite app_nth1; [| rewrite length_firstn; lia].
    rewrite nth_firstn.
    destruct (Z.to_nat i <? Z.to_nat j)%nat eqn:E; [reflexivity |].
    apply Nat.ltb_ge in E. lia.
  - rewrite app_nth2; rewrite length_firstn; [| lia].
    replace (Init.Nat.min (Z.to_nat j) (List.length points)) with (Z.to_nat j) by lia.
    destruct (Z.to_nat i - Z.to_nat j)%nat as [| k] eqn:E; [lia |].
    simpl nth. rewrite nth_skipn. f_equal. lia.
Qed.

Lemma set_item_length (points points' : list F64.float) (idx : Z) (v : F64.float) :
  Np.set_item points idx v = inr points' ->
  List.length points' = List.length points.
Proof.
  unfold Np.set_item.
  remember (Z.of_nat (List.length points)) as n eqn:Hn.
  remember (if idx <? 0 then idx + n else idx) as j eqn:Hj.
  intros H.
  destruct ((0 <=? j) && (j <? n)) eqn:Hin; [| discriminate H].
  apply andb_true_iff in Hin. destruct Hin as [H0 H1].
  apply Z.leb_le in H0. apply Z.ltb_lt in H1.
  injection H as <-.
  rewrite length_app, length_firstn. simpl List.length. rewrite length_skipn. lia.
Qed.

Lemma linspace_num_nonneg (start stop : F64.float) (num : Z) (y : list F64.float) :
  Np.linspace start stop num = inr y -> 0 <= num.
Proof.
  unfold Np.linspace. destruct (num <? 0) eqn:E; [discriminate |].
  intros _. apply Z.ltb_ge in E. exact E.
Qed.

Lemma zeros_length : Z.of_nat (List.length (Np.zeros total_num)) = total_num.
Proof.
  unfold Np.zeros. rewrite repeat_length. apply Z2Nat.id. unfold total_num. lia.
Qed.

(** C7 as stated fails: with pulse_voltage 4 and dc_voltage 1 the product
    [dc_voltage / pulse_voltage * max_dac] is 2047.75, whose nearest integer
    is 2048, while every sample of the tail (from index 302 on) is 2047. *)
Lemma dc_level_is_not_rounded :
  match generate_pulse_sequence (F64.of_Z 4) (F64.of_Z 1) false with
  | inl _ => False
  | inr points =>
      F64.mul (F64.div (F64.of_Z 1) (F64.of_Z 4))
              (F64.of_Z (max_dac (F64.of_Z 4) (F64.of_Z 1))) = F64.ratio 204775 100
      /\ Py.round (F64.ratio 204775 100) = inr 2048
      /\ fall_num (F64.of_Z 4) (F64.of_Z 1) = inr 2
      /\ forallb (F64.eqb (F64.of_Z 2047)) (skipn 302 points) = true
      /\ item points 302 = F64.of_Z 2047
      /\ F64.eqb (F64.of_Z 2047) (F64.of_Z 2048) = false
  end.
Proof. vm_compute. repeat split. Qed.

Lemma pulse_4_1_returns :
  is_error (generate_pulse_sequence (F64.of_Z 4) (F64.of_Z 1) false) = false.
Proof. vm_compute. reflexivity. Qed.

(** C7, amended. Whenever [generate_pulse_sequence] returns (which needs
    pulse_voltage <> 0), the dc level written into the tail of the output,
    from index [pulse_fall_start + fall_num] to the end, is
    [int(dc_voltage / pulse_voltage * max_dac)]: the product truncated
    toward zero, not rounded to nearest.  With [return_to_zero] the last
    sample is excepted. *)
Theorem tail_holds_truncated_dc_level :
  forall (pulse_voltage dc_voltage : F64.float) (return_to_zero : bool)
         (points : list F64.float),
    generate_pulse_sequence pulse_voltage dc_voltage return_to_zero = inr points ->
    exists level fall : Z,
      F64.is_zero pulse_voltage = false
      /\ Py.int (F64.mul (F64.div dc_voltage pulse_voltage)
                         (F64.of_Z (max_dac pulse_voltage dc_voltage))) = inr level
      /\ fall_num pulse_voltage dc_voltage = inr fall
      /\ 0 <= fall
      /\ Z.of_nat (List.length points) = total_num
      /\ forall i : Z,
           pulse_fall_start + fall <= i < total_num ->
           (return_to_zero = true -> i <> total_num - 1) ->
           item points i = F64.of_Z level.
Proof.
  intros pv dc rtz points. unfold generate_pulse_sequence.
  destruct (dc_dac pv dc) as [e | level] eqn:Hd; [discriminate |].
  destruct (fall_num pv dc) as [e | fall] eqn:Hf; [discriminate |].
  unfold rbind at 1 2.
  destruct (Np.linspace (F64.of_Z 0) (F64.of_Z (max_dac pv dc)) rise_num)
    as [e | rise] eqn:Hr; [discriminate |].
  unfold rbind at 1.
  destruct (Np.set_slice (Np.zeros total_num) pulse_rise_start pulse_rise_end rise)
    as [e | p1] eqn:H1; [discriminate |].
  unfold rbind at 1.
  destruct (Np.linspace (F64.of_Z (max_dac pv dc)) (F64.of_Z level) fall)
    as [e | fl] eqn:Hl; [discriminate |].
  unfold rbind at 1.
  set (p2 := Np.fill_slice p1 pulse_hold_start (Some pulse_hold_end)
                           (F64.of_Z (max_dac pv dc))).
  destruct (Np.set_slice p2 pulse_fall_start (pulse_fall_start + fall) fl)
    as [e | p3] eqn:H3; [discriminate |].
  unfold rbind at 1.
  set (p4 := Np.fill_slice p3 (pulse_fall_start + fall) None (F64.of_Z level)).
  assert (Hfall : 0 <= fall) by (eapply linspace_num_nonneg; exact Hl).
  assert (Hlen4 : Z.of_nat (List.length p4) = 20000).
  { subst p4. rewrite fill_slice_length.
    rewrite (set_slice_length _ _ _ _ _ H3). subst p2. rewrite fill_slice_length.
    rewrite (set_slice_length _ _ _ _ _ H1). exact zeros_length. }
  assert (Hstart : pulse_fall_start = 300) by reflexivity.
  assert (Htail : forall i : Z, 300 + fall <= i < 20000 -> item p4 i = F64.of_Z level).
  { intros i Hi. subst p4. rewrite Hstart. apply fill_tail_item; [lia |].
    rewrite (set_slice_length _ _ _ _ _ H3). subst p2. rewrite fill_slice_length.
    rewrite (set_slice_length _ _ _ _ _ H1). rewrite zeros_length. unfold total_num. lia. }
  assert (Hdc : F64.is_zero pv = false
                /\ Py.int (F64.mul (F64.div dc pv) (F64.of_Z (max_dac pv dc))) = inr level).
  { revert Hd. unfold dc_dac, Py.truediv.
    destruct (F64.is_zero pv); [discriminate |]. intros Hd. split; [reflexivity | exact Hd]. }
  destruct Hdc as [Hnz Hlevel].
  intros H. exists level, fall.
  change total_num with 20000. rewrite Hstart.
  repeat (split; [first [exact Hnz | exact Hlevel | reflexivity | exact Hfall] |]).
  destruct rtz.
  - unfold rbind in H.
    destruct (Np.set_item p4 (-1) F64.zero) as [e | p5] eqn:H5; [discriminate |].
    injection H as <-. split.
    + rewrite (set_item_length _ _ _ _ H5). exact Hlen4.
    + intros i Hi Hlast. rewrite (set_item_other _ _ _ _ i H5).
      * apply Htail; exact Hi.
      * lia.
      * rewrite Hlen4. change (-1 <? 0) with true. cbv iota. specialize (Hlast eq_refl). lia.
  - injection H as <-. split; [exact Hlen4 |].
    intros i Hi _. apply Htail; exact Hi.
Qed.

Lemma tail_holds_truncated_dc_level_witness :
  exists points : list F64.float,
    generate_pulse_sequence (F64.of_Z 4) (F64.of_Z 1) false = inr points
    /\ item points 5000 = F64.of_Z 2047.
Proof.
  destruct (generate_pulse_sequence (F64.of_Z 4) (F64.of_Z 1) false)
    as [e | points] eqn:E.
  - exfalso. pose proof pulse_4_1_returns as H. rewrite E in H. discriminate H.
  - exists points. split; [reflexivity |].
    destruct (tail_holds_truncated_dc_level _ _ _ _ E)
      as (level & fall & _ & Hlevel & Hfall & _ & _ & Htail).
    vm_compute in Hlevel. injection Hlevel as <-.
    vm_compute in Hfall. injection Hfall as <-.
    apply Htail; [vm_compute; split; [discriminate | reflexivity] | discriminate].
Defined.

(** * Further properties of the driver *)

(** ** The waveform cache and upload *)

Lemma channel_eqb_refl (c : channel) : channel_eqb c c = true.
Proof. destruct c; reflexivity. Qed.

Lemma channel_eqb_neq (c d : channel) : c <> d -> channel_eqb c d = false.
Proof. destruct c, d; intros H; try reflexivity; exfalso; apply H; reflexivity. Qed.

(** X1. An empty waveform is rejected by [max()]: the setter raises the
    ValueError of the empty reduction and sends nothing, but it has already
    replaced the cached waveform by the empty array. *)
Theorem waveform_volatile_empty :
  forall (self : channel) (st : instrument),
    let r := waveform_volatile self [] st in
    fst r = inl empty_max_error
    /\ transport (snd r) = transport st
    /\ get_waveform_volatile self (snd r) = Some [].
Proof.
  intros self st. cbv zeta. repeat split.
  unfold get_waveform_volatile. simpl. rewrite channel_eqb_refl. reflexivity.
Qed.


(** X3. Whatever the outcome of the upload, reading [waveform_volatile]
    back on the same channel gives the samples as they were passed in (not
    the normalised or encoded ones), and the other channel's cached
    waveform is untouched. *)
Theorem waveform_volatile_set_then_get :
  forall (self other : channel) (waveform : list F64.float) (st : instrument),
    let st' := snd (waveform_volatile self waveform st) in
    get_waveform_volatile self st' = Some waveform
    /\ (other <> self ->
        get_waveform_volatile other st' = get_waveform_volatile other st).
Proof.
  intros self other waveform st. cbv zeta.
  unfold waveform_volatile, bind, lift, set_waveform_volatile, get_waveform_volatile.
  destruct (_preprocess_waveform waveform) as [e | values]; simpl;
    rewrite channel_eqb_refl; (split; [reflexivity |]);
    intros Hne; rewrite (channel_eqb_neq _ _ Hne); reflexivity.
Qed.

Lemma waveform_volatile_set_then_get_witness :
  get_waveform_volatile ch_1
    (snd (waveform_volatile ch_1 [F64.of_Z (-2); F64.of_Z 1] initial))
    = Some [F64.of_Z (-2); F64.of_Z 1]
  /\ get_waveform_volatile ch_2
      (snd (waveform_volatile ch_1 [F64.of_Z (-2); F64.of_Z 1] initial))
    = get_waveform_volatile ch_2 initial.
Proof.
  destruct (waveform_volatile_set_then_get
              ch_1 ch_2 [F64.of_Z (-2); F64.of_Z 1] initial) as [Hget Hother].
  split; [exact Hget | apply Hother; discriminate].
Defined.

Lemma maximum_nan_left (b : F64.float) : Np.maximum F64.nan b = F64.nan.
Proof. reflexivity. Qed.

Lemma fold_maximum_nan (xs : list F64.float) :
  fold_left Np.maximum xs F64.nan = F64.nan.
Proof. induction xs as [| x xs IH]; simpl; [reflexivity | exact IH]. Qed.

Lemma fold_maximum_has_nan (xs : list F64.float) (acc : F64.float) :
  existsb F64.is_nan (acc :: xs) = true ->
  fold_left Np.maximum xs acc = F64.nan.
Proof.
  revert acc. induction xs as [| x xs IH]; intros acc H.
  - simpl in H. rewrite orb_false_r in H.
    destruct acc; try discriminate H. reflexivity.
  - simpl fold_left. apply IH. simpl. simpl in H.
    destruct acc as [s | s | | s m e]; simpl in *.
    + destruct x as [sx | sx | | sx mx ex]; simpl in *; try exact H;
        try reflexivity; destruct sx; try exact H; destruct s; exact H.
    + destruct x as [sx | sx | | sx mx ex]; simpl in *; try exact H;
        try reflexivity; destruct s; try destruct sx; exact H.
    + reflexivity.
    + destruct x as [sx | sx | | sx mx ex]; simpl in *; try reflexivity.
      * destruct s; exact H.
      * destruct s, sx; exact H.
      * unfold Np.maximum. simpl F64.is_nan. cbv iota.
        destruct (F64.gtb (S754_finite s m e) (S754_finite sx mx ex)); exact H.
Qed.

Lemma div_by_nan_not_finite (x : F64.float) :
  F64.is_finite (F64.div x F64.nan) = false.
Proof. destruct x; reflexivity. Qed.

(** X4. One NaN sample spoils the whole block: [max()] propagates the NaN,
    every normalised sample becomes NaN, and every encoded value is an
    invalid integer cast; no exception is raised. *)
Theorem preprocess_waveform_nan_sample :
  forall data : list F64.float,
    existsb F64.is_nan data = true ->
    Np.max data = inr F64.nan
    /\ _preprocess_waveform data = inr (repeat Np.Invalid (List.length data)).
Proof.
  intros data H.
  assert (Hmax : Np.max data = inr F64.nan).
  { destruct data as [| x xs]; [discriminate H |].
    unfold Np.max, ok. f_equal. apply fold_maximum_has_nan. exact H. }
  split; [exact Hmax |].
  unfold _preprocess_waveform. rewrite Hmax. simpl.
  unfold ok. f_equal. rewrite List.map_map.
  rewrite <- map_const_repeat. apply List.map_ext. intros x.
  apply not_finite_encodes_invalid, div_by_nan_not_finite.
Qed.

Lemma preprocess_waveform_nan_sample_witness :
  _preprocess_waveform [F64.of_Z 1; F64.nan; F64.of_Z 3]
  = inr [Np.Invalid; Np.Invalid; Np.Invalid].
Proof.
  exact (proj2 (preprocess_waveform_nan_sample
                  [F64.of_Z 1; F64.nan; F64.of_Z 3] eq_refl)).
Defined.

Lemma has_brace_app (a b : string) :
  has_brace (a ++ b)%string = has_brace a || has_brace b.
Proof.
  induction a as [| c a IH]; simpl; [reflexivity |].
  rewrite IH. apply orb_assoc.
Qed.




Lemma upper_char_idempotent (c : Ascii.ascii) :
  Py.upper_char (Py.upper_char c) = Py.upper_char c.
Proof. destruct c as [[] [] [] [] [] [] [] []]; reflexivity. Qed.

Lemma upper_idempotent (s : string) : Py.upper (Py.upper s) = Py.upper s.
Proof.
  induction s as [| c s IH]; simpl; [reflexivity |].
  rewrite upper_char_idempotent, IH. reflexivity.
Qed.

Lemma upper_char_brace (c : Ascii.ascii) :
  is_brace (Py.upper_char c) = is_brace c.
Proof. destruct c as [[] [] [] [] [] [] [] []]; reflexivity. Qed.

Lemma upper_brace (s : string) : has_brace (Py.upper s) = has_brace s.
Proof.
  induction s as [| c s IH]; simpl; [reflexivity |].
  rewrite upper_char_brace, IH. reflexivity.
Qed.

Lemma delete_command_brace (self : channel) (name : string) :
  has_brace (delete_command self name) = has_brace name.
Proof.
  unfold delete_command. rewrite !has_brace_app, upper_brace.
  destruct self; reflexivity.
Qed.

(** X6. For an ASCII name without braces [delete_waveform] validates
    nothing and sends exactly one command, [:DATA<id>:DEL <NAME>] with the
    name upper-cased; so deleting under such a name and under its
    upper-cased form send the same command. *)
Theorem delete_waveform_upper_cases_name :
  forall (insert_id : string -> result string) (self : channel) (name : string)
         (st : instrument),
    keeps_plain_text insert_id ->
    is_ascii name = true ->
    has_brace name = false ->
    delete_waveform insert_id self name st
      = (inr tt,
         send (Write [Lit (":DATA" ++ Py.str (id self) ++ ":DEL " ++ Py.upper name)%string])
              st)
    /\ delete_waveform insert_id self (Py.upper name) st
       = delete_waveform insert_id self name st.
Proof.
  intros insert_id self name st Hid _ Hname. split.
  - unfold delete_waveform, channel_write. fold (delete_command self name).
    rewrite (Hid _ (eq_trans (delete_command_brace self name) Hname)). reflexivity.
  - unfold delete_waveform. rewrite upper_idempotent. reflexivity.
Qed.

Lemma delete_waveform_upper_cases_name_witness :
  let insert_id := fun s : string =>
    if has_brace s then inl (ValueError [Lit "Single '{' encountered in format string"])
    else inr s in
  delete_waveform insert_id ch_1 "pulse_1" initial
    = (inr tt, send (Write [Lit ":DATA1:DEL PULSE_1"]) initial)
  /\ delete_waveform insert_id ch_1 "PULSE_1" initial
     = delete_waveform insert_id ch_1 "pulse_1" initial.
Proof.
  intros insert_id.
  assert (Hid : keeps_plain_text insert_id).
  { intros s Hs. unfold insert_id. rewrite Hs. reflexivity. }
  exact (delete_waveform_upper_cases_name insert_id ch_1 "pulse_1" initial
           Hid eq_refl eq_refl).
Defined.

(** ** The voltage budget *)

Lemma abs_opp (x : F64.float) : F64.abs (F64.opp x) = F64.abs x.
Proof. destruct x; reflexivity. Qed.

(** X7. The voltage budget looks at magnitudes only: negating the amplitude
    or the offset changes neither the outcome of [_check_voltages] nor the
    state it leaves. *)
Theorem check_voltages_ignores_signs :
  forall (amplitude offset : F64.float) (st : instrument),
    _check_voltages (F64.opp amplitude) offset st = _check_voltages amplitude offset st
    /\ _check_voltages amplitude (F64.opp offset) st = _check_voltages amplitude offset st
    /\ _check_voltages (F64.opp amplitude) (F64.opp offset) st
       = _check_voltages amplitude offset st.
Proof.
  intros amplitude offset st. unfold _check_voltages.
  rewrite !abs_opp. repeat split.
Qed.

Lemma add_nan_r (x : F64.float) : F64.add x F64.nan = F64.nan.
Proof. destruct x; reflexivity. Qed.

Lemma over_budget_nan (amplitude offset : F64.float) :
  F64.is_nan amplitude = true \/ F64.is_nan offset = true ->
  over_budget amplitude offset = false.
Proof.
  unfold over_budget. intros [H | H].
  - destruct amplitude; try discriminate H. reflexivity.
  - destruct offset; try discriminate H.
    change (F64.abs S754_nan) with F64.nan. rewrite add_nan_r. reflexivity.
Qed.

(** X8. A NaN amplitude or offset is not caught by the budget check (the
    comparison with 5.0 is false on NaN): [_check_voltages] passes and
    [apply_noise], [apply_pulse], [apply_square] and [apply_user_waveform]
    send their command with the NaN in it. *)
Theorem apply_accepts_nan_voltage :
  forall (self : channel) (frequency amplitude offset : F64.float) (st : instrument),
    F64.is_nan amplitude = true \/ F64.is_nan offset = true ->
    _check_voltages amplitude offset st = (inr tt, st)
    /\ apply_noise self amplitude offset st
       = (inr tt, send (Write [Lit ":APPL"; FmtInt (id self); Lit ":NOIS DEF, ";
                               FmtFloat amplitude; Lit ", "; FmtFloat offset]) st)
    /\ apply_pulse self frequency amplitude offset st
       = (inr tt, send (Write [Lit ":APPL"; FmtInt (id self); Lit ":PULS ";
                               FmtFloat frequency; Lit ", ";
                               FmtFloat amplitude; Lit ", "; FmtFloat offset]) st)
    /\ apply_square self frequency amplitude offset st
       = (inr tt, send (Write [Lit ":APPL"; FmtInt (id self); Lit ":SQU ";
                               FmtFloat frequency; Lit ", ";
                               FmtFloat amplitude; Lit ", "; FmtFloat offset]) st)
    /\ apply_user_waveform self frequency amplitude offset st
       = (inr tt, send (Write [Lit ":APPL"; FmtInt (id self); Lit ":USER ";
                               FmtFloat frequency; Lit ", ";
                               FmtFloat amplitude; Lit ", "; FmtFloat offset]) st).
Proof.
  intros self frequency amplitude offset st H.
  assert (Hc := check_voltages_within amplitude offset st (over_budget_nan _ _ H)).
  split; [exact Hc |].
  unfold apply_noise, apply_pulse, apply_square, apply_user_waveform.
  repeat split; rewrite (bind_ok _ _ _ _ _ Hc); reflexivity.
Qed.

Lemma apply_accepts_nan_voltage_witness :
  apply_noise ch_2 F64.nan (F64.of_Z 100) initial
  = (inr tt, send (Write [Lit ":APPL"; FmtInt 2; Lit ":NOIS DEF, ";
                          FmtFloat F64.nan; Lit ", "; FmtFloat (F64.of_Z 100)]) initial).
Proof.
  exact (proj1 (proj2 (apply_accepts_nan_voltage
                         ch_2 F64.zero F64.nan (F64.of_Z 100) initial
                         (or_introl eq_refl)))).
Defined.

(** X9. [apply_sin] fails exactly when the budget is exceeded or both
    [frequency > 330e6] and [amplitude > 3.0] hold; when both checks would
    fail it is the budget error that is raised; a failing call sends
    nothing and a succeeding one sends exactly the one [:SIN] command. *)
Theorem apply_sin_outcome :
  forall (self : channel) (frequency amplitude offset : F64.float) (st : instrument),
    apply_sin self frequency amplitude offset st =
      if F64.gtb (F64.add (F64.abs amplitude) (F64.abs offset)) (F64.of_Z 5) then
        (inl (ValueError [Lit "Amplitude + offset exceed maximal voltage of ";
                          FmtFloat (F64.of_Z 5); Lit " V."]), st)
      else if F64.gtb frequency (F64.of_Z 330000000) && F64.gtb amplitude (F64.of_Z 3) then
        (inl (ValueError [Lit "Frequency of higher than "; FmtFloat (F64.of_Z 330000000);
                          Lit " Hz is only supported for sin with";
                          Lit " amplitude below "; FmtFloat (F64.of_Z 3); Lit " V."]), st)
      else
        (inr tt, send (Write [Lit ":APPL"; FmtInt (id self); Lit ":SIN ";
                              FmtFloat frequency; Lit ", ";
                              FmtFloat amplitude; Lit ", "; FmtFloat offset]) st).
Proof.
  intros self frequency amplitude offset st.
  unfold apply_sin, bind, _check_voltages, _check_sin_params.
  change MAX_VOLTAGE with (F64.of_Z 5).
  change (snd FREQUENCY_RANGE) with (F64.of_Z 330000000).
  change SIN_AMPL_BORDER with (F64.of_Z 3).
  destruct (F64.gtb (F64.add (F64.abs amplitude) (F64.abs offset)) (F64.of_Z 5));
    [reflexivity |].
  unfold ret, ok.
  destruct (F64.gtb frequency (F64.of_Z 330000000) && F64.gtb amplitude (F64.of_Z 3));
    reflexivity.
Qed.

Lemma check_voltages_cases (amplitude offset : F64.float) (st : instrument) :
  (exists e : exn, _check_voltages amplitude offset st = (inl e, st))
  \/ _check_voltages amplitude offset st = (inr tt, st).
Proof.
  unfold _check_voltages.
  destruct (F64.gtb (F64.add (F64.abs amplitude) (F64.abs offset)) MAX_VOLTAGE);
    [left; eexists; reflexivity | right; reflexivity].
Qed.

Lemma check_sin_params_cases (frequency amplitude : F64.float) (st : instrument) :
  (exists e : exn, _check_sin_params frequency amplitude st = (inl e, st))
  \/ _check_sin_params frequency amplitude st = (inr tt, st).
Proof.
  unfold _check_sin_params.
  destruct (F64.gtb frequency (snd FREQUENCY_RANGE) && F64.gtb amplitude SIN_AMPL_BORDER);
    [left; eexists; reflexivity | right; reflexivity].
Qed.

(** X10. None of the apply operations touches the cached waveform, and
    each extends what was sent by at most one command: none when it raises,
    one when it returns. *)
Theorem apply_operations_frame :
  forall (self : channel) (frequency amplitude offset : F64.float) (st : instrument),
    Forall
      (fun r : result unit * instrument =>
         _waveform_volatile (snd r) = _waveform_volatile st
         /\ exists added : list sent,
              transport (snd r) = transport st ++ added
              /\ List.length added = (if is_error (fst r) then 0 else 1)%nat)
      [apply_dc self amplitude st;
       apply_noise self amplitude offset st;
       apply_pulse self frequency amplitude offset st;
       apply_sin self frequency amplitude offset st;
       apply_square self frequency amplitude offset st;
       apply_user_waveform self frequency amplitude offset st].
Proof.
  intros self frequency amplitude offset st.
  set (P := fun r : result unit * instrument =>
              _waveform_volatile (snd r) = _waveform_volatile st
              /\ exists added : list sent,
                   transport (snd r) = transport st ++ added
                   /\ List.length added = (if is_error (fst r) then 0 else 1)%nat).
  assert (Hw : forall c : fstring, P (write c st)).
  { intros c. split; [reflexivity |]. eexists. split; reflexivity. }
  assert (He : forall e : exn, P (@inl exn unit e, st)).
  { intros e. split; [reflexivity |]. exists []. split; [| reflexivity].
    simpl. symmetry. apply app_nil_r. }
  assert (Hbind : forall (c : M unit) (k : unit -> M unit),
             (exists e : exn, c st = (inl e, st)) \/ c st = (inr tt, st) ->
             (forall u : unit, P (k u st)) ->
             P (bind c k st)).
  { intros c k [[e Hc] | Hc] Hk; unfold bind; rewrite Hc; [apply He | apply Hk]. }
  assert (H1 : P (apply_dc self amplitude st)) by apply Hw.
  assert (H2 : P (apply_noise self amplitude offset st)).
  { apply Hbind; [apply check_voltages_cases | intros u; apply Hw]. }
  assert (H3 : P (apply_pulse self frequency amplitude offset st)).
  { apply Hbind; [apply check_voltages_cases | intros u; apply Hw]. }
  assert (H4 : P (apply_sin self frequency amplitude offset st)).
  { apply Hbind; [apply check_voltages_cases | intros u].
    apply Hbind; [apply check_sin_params_cases | intros v; apply Hw]. }
  assert (H5 : P (apply_square self frequency amplitude offset st)).
  { apply Hbind; [apply check_voltages_cases | intros u; apply Hw]. }
  assert (H6 : P (apply_user_waveform self frequency amplitude offset st)).
  { apply Hbind; [apply check_voltages_cases | intros u; apply Hw]. }
  exact (Forall_cons _ H1 (Forall_cons _ H2 (Forall_cons _ H3 (Forall_cons _ H4
          (Forall_cons _ H5 (Forall_cons _ H6 (Forall_nil _))))))).
Qed.

(** ** The pulse synthesizer: errors and shape *)

(** X11. A zero pulse_voltage (of either sign) makes
    [generate_pulse_sequence] raise ZeroDivisionError, whatever the other
    arguments. *)
Theorem generate_pulse_sequence_zero_pulse :
  forall (pulse_voltage dc_voltage : F64.float) (return_to_zero : bool),
    F64.eqb pulse_voltage F64.zero = true ->
    generate_pulse_sequence pulse_voltage dc_voltage return_to_zero
      = inl ZeroDivisionError.
Proof.
  intros pv dc rtz H. destruct (eqb_zero_inv _ H) as [s ->]. reflexivity.
Qed.

Lemma generate_pulse_sequence_zero_pulse_witness :
  generate_pulse_sequence (S754_zero true) (F64.of_Z 2) true = inl ZeroDivisionError.
Proof.
  exact (generate_pulse_sequence_zero_pulse (S754_zero true) (F64.of_Z 2) true eq_refl).
Defined.

Lemma mul_nan_l (x : F64.float) : F64.mul F64.nan x = F64.nan.
Proof. reflexivity. Qed.

Lemma div_nan_l (x : F64.float) : F64.div F64.nan x = F64.nan.
Proof. reflexivity. Qed.

Lemma div_nan_r (x : F64.float) : F64.div x F64.nan = F64.nan.
Proof. destruct x; reflexivity. Qed.

(** X12. A NaN argument is not tolerated: with a NaN pulse_voltage, or a
    NaN dc_voltage and a non-zero pulse_voltage, the conversion [int(...)]
    of line 327 raises ValueError; an infinite dc_voltage with a finite
    non-zero pulse_voltage raises OverflowError there. *)
Theorem generate_pulse_sequence_non_finite :
  forall (pulse_voltage dc_voltage : F64.float) (return_to_zero : bool),
    F64.is_zero pulse_voltage = false ->
    (F64.is_nan pulse_voltage = true \/ F64.is_nan dc_voltage = true ->
     generate_pulse_sequence pulse_voltage dc_voltage return_to_zero
       = inl (ValueError [Lit "cannot convert float NaN to integer"]))
    /\ (F64.is_finite pulse_voltage = true ->
        F64.is_finite dc_voltage = false -> F64.is_nan dc_voltage = false ->
        generate_pulse_sequence pulse_voltage dc_voltage return_to_zero
          = inl OverflowError).
Proof.
  intros pv dc rtz Hz. split.
  - intros H. unfold generate_pulse_sequence, dc_dac, Py.truediv.
    rewrite Hz. unfold rbind at 2. unfold ok.
    assert (Hq : F64.div dc pv = F64.nan).
    { destruct H as [H | H].
      - destruct pv; try discriminate H. apply div_nan_r.
      - destruct dc; try discriminate H. apply div_nan_l. }
    rewrite Hq, mul_nan_l. reflexivity.
  - intros Hf Hi Hn. unfold generate_pulse_sequence, dc_dac, Py.truediv.
    rewrite Hz. unfold rbind at 2. unfold ok.
    destruct dc as [s | s | | s m e]; try discriminate Hi; try discriminate Hn.
    destruct pv as [sp | sp | | sp mp ep]; try discriminate Hf; try discriminate Hz.
    unfold max_dac.
    destruct (F64.ltb (S754_finite sp mp ep) F64.zero
              && F64.leb (S754_infinity s) F64.zero);
      destruct s, sp; reflexivity.
Qed.

Lemma generate_pulse_sequence_non_finite_witness :
  generate_pulse_sequence F64.nan (F64.of_Z 2) false
    = inl (ValueError [Lit "cannot convert float NaN to integer"])
  /\ generate_pulse_sequence (F64.of_Z 5) (S754_infinity false) false
    = inl OverflowError.
Proof.
  destruct (generate_pulse_sequence_non_finite F64.nan (F64.of_Z 2) false eq_refl)
    as [Hnan _].
  destruct (generate_pulse_sequence_non_finite
              (F64.of_Z 5) (S754_infinity false) false eq_refl) as [_ Hinf].
  split; [apply Hnan; left; reflexivity | apply Hinf; reflexivity].
Defined.

Lemma norm_index_inside (n a : Z) : 0 <= a <= n -> Np.norm_index n a = a.
Proof.
  intros H. unfold Np.norm_index.
  destruct (a <? 0) eqn:E; [apply Z.ltb_lt in E |]; lia.
Qed.

Lemma item_below_splice (points rest : list F64.float) (a i : Z) :
  0 <= i < a -> a <= Z.of_nat (List.length points) ->
  item (firstn (Z.to_nat a) points ++ rest) i = item points i.
Proof.
  intros Hi Ha. unfold item.
  rewrite app_nth1; [| rewrite length_firstn; lia].
  rewrite nth_firstn.
  destruct (Z.to_nat i <? Z.to_nat a)%nat eqn:E; [reflexivity |].
  apply Nat.ltb_ge in E. lia.
Qed.

Lemma item_in_splice (points middle rest : list F64.float) (a k : Z) :
  0 <= a <= Z.of_nat (List.length points) ->
  0 <= k < Z.of_nat (List.length middle) ->
  item (firstn (Z.to_nat a) points ++ middle ++ rest) (a + k)
  = nth (Z.to_nat k) middle F64.nan.
Proof.
  intros Ha Hk. unfold item.
  rewrite app_nth2; rewrite length_firstn; [| lia].
  replace (Init.Nat.min (Z.to_nat a) (List.length points)) with (Z.to_nat a) by lia.
  replace (Z.to_nat (a + k) - Z.to_nat a)%nat with (Z.to_nat k) by lia.
  apply app_nth1. lia.
Qed.

Lemma norm_index_nonneg (n a : Z) : 0 <= a -> Np.norm_index n a = Z.min a n.
Proof.
  intros H. unfold Np.norm_index.
  destruct (a <? 0) eqn:E; [apply Z.ltb_lt in E; lia | reflexivity].
Qed.

Lemma set_slice_item_below (points values points' : list F64.float) (a b i : Z) :
  Np.set_slice points a b values = inr points' ->
  0 <= i < a -> i < Z.of_nat (List.length points) ->
  item points' i = item points i.
Proof.
  unfold Np.set_slice. intros H Hi Hn.
  rewrite (norm_index_nonneg _ a) in H by lia.
  destruct (List.length values =? _)%nat.
  - injection H as <-. apply item_below_splice; lia.
  - destruct values as [| v [| w values]]; try discriminate H.
    injection H as <-. apply item_below_splice; lia.
Qed.

Lemma set_slice_item_inside (points values points' : list F64.float) (a b k : Z) :
  Np.set_slice points a b values = inr points' ->
  0 <= a <= b -> b <= Z.of_nat (List.length points) ->
  Z.of_nat (List.length values) = b - a ->
  0 <= k < b - a ->
  item points' (a + k) = nth (Z.to_nat k) values F64.nan.
Proof.
  unfold Np.set_slice. intros H Hab Hb Hlen Hk.
  rewrite (norm_index_inside _ a) in H by lia.
  rewrite (norm_index_inside _ b) in H by lia.
  replace (Z.max a b) with b in H by lia.
  assert (E : (List.length values =? Z.to_nat (b - a))%nat = true)
    by (apply Nat.eqb_eq; lia).
  rewrite E in H. injection H as <-.
  apply item_in_splice; lia.
Qed.

Lemma fill_slice_item_below (points : list F64.float) (a i : Z) (b : option Z)
    (v : F64.float) :
  0 <= i < a -> i < Z.of_nat (List.length points) ->
  item (Np.fill_slice points a b v) i = item points i.
Proof.
  intros Hi Hn. unfold Np.fill_slice.
  rewrite (norm_index_nonneg _ a) by lia.
  apply item_below_splice; lia.
Qed.

Lemma fill_slice_item_inside (points : list F64.float) (a b i : Z) (v : F64.float) :
  0 <= a <= b -> b <= Z.of_nat (List.length points) ->
  a <= i < b ->
  item (Np.fill_slice points a (Some b) v) i = v.
Proof.
  intros Hab Hb Hi. unfold Np.fill_slice.
  rewrite (norm_index_inside _ a) by lia.
  rewrite (norm_index_inside _ b) by lia.
  replace (Z.max a b) with b by lia.
  replace i with (a + (i - a)) by lia.
  rewrite item_in_splice; [| lia | rewrite repeat_length; lia].
  apply nth_repeat_lt. lia.
Qed.

Lemma set_item_at (points points' : list F64.float) (idx : Z) (v : F64.float) :
  Np.set_item points idx v = inr points' ->
  item points' (if idx <? 0 then idx + Z.of_nat (List.length points) else idx) = v.
Proof.
  unfold Np.set_item, item.
  remember (Z.of_nat (List.length points)) as n eqn:Hn.
  remember (if idx <? 0 then idx + n else idx) as j eqn:Hj.
  intros H.
  destruct ((0 <=? j) && (j <? n)) eqn:Hin; [| discriminate H].
  apply andb_true_iff in Hin. destruct Hin as [H0 H1].
  apply Z.leb_le in H0. apply Z.ltb_lt in H1.
  injection H as <-.
  rewrite app_nth2; rewrite length_firstn; [| lia].
  replace (Z.to_nat j - Init.Nat.min (Z.to_nat j) (List.length points))%nat
    with 0%nat by lia.
  reflexivity.
Qed.

Lemma zeros_item (i : Z) : 0 <= i < total_num -> item (Np.zeros total_num) i = F64.zero.
Proof.
  intros Hi. unfold item, Np.zeros. apply nth_repeat_lt. lia.
Qed.

Lemma max_dac_cases (pulse_voltage dc_voltage : F64.float) :
  max_dac pulse_voltage dc_voltage = 8191 \/ max_dac pulse_voltage dc_voltage = -8191.
Proof.
  unfold max_dac.
  destruct (F64.ltb pulse_voltage F64.zero && F64.leb dc_voltage F64.zero);
    [right | left]; reflexivity.
Qed.

(** The steps of a run of [generate_pulse_sequence] that returns. *)
Lemma generate_pulse_sequence_inv (pv dc : F64.float) (rtz : bool)
    (points : list F64.float) :
  generate_pulse_sequence pv dc rtz = inr points ->
  exists (level fall : Z) (rise p1 fl p3 : list F64.float),
    dc_dac pv dc = inr level
    /\ fall_num pv dc = inr fall
    /\ Np.linspace (F64.of_Z 0) (F64.of_Z (max_dac pv dc)) rise_num = inr rise
    /\ Np.set_slice (Np.zeros total_num) pulse_rise_start pulse_rise_end rise = inr p1
    /\ Np.linspace (F64.of_Z (max_dac pv dc)) (F64.of_Z level) fall = inr fl
    /\ Np.set_slice
         (Np.fill_slice p1 pulse_hold_start (Some pulse_hold_end)
                        (F64.of_Z (max_dac pv dc)))
         pulse_fall_start (pulse_fall_start + fall) fl = inr p3
    /\ (if rtz
        then Np.set_item (Np.fill_slice p3 (pulse_fall_start + fall) None
                                        (F64.of_Z level)) (-1) F64.zero
        else ok (Np.fill_slice p3 (pulse_fall_start + fall) None (F64.of_Z level)))
       = inr points.
Proof.
  intros H. unfold generate_pulse_sequence in H.
  destruct (dc_dac pv dc) as [e | level] eqn:Hd; [discriminate H |].
  destruct (fall_num pv dc) as [e | fall] eqn:Hf; [discriminate H |].
  unfold rbind at 1 2 in H.
  destruct (Np.linspace (F64.of_Z 0) (F64.of_Z (max_dac pv dc)) rise_num)
    as [e | rise] eqn:Hr; [discriminate H |].
  unfold rbind at 1 in H.
  destruct (Np.set_slice (Np.zeros total_num) pulse_rise_start pulse_rise_end rise)
    as [e | p1] eqn:H1; [discriminate H |].
  unfold rbind at 1 in H.
  destruct (Np.linspace (F64.of_Z (max_dac pv dc)) (F64.of_Z level) fall)
    as [e | fl] eqn:Hl; [discriminate H |].
  unfold rbind at 1 in H.
  destruct (Np.set_slice
              (Np.fill_slice p1 pulse_hold_start (Some pulse_hold_end)
                             (F64.of_Z (max_dac pv dc)))
              pulse_fall_start (pulse_fall_start + fall) fl)
    as [e | p3] eqn:H3; [discriminate H |].
  unfold rbind at 1 in H.
  exists level, fall, rise, p1, fl, p3.
  repeat (split; [first [reflexivity | eassumption] |]).
  destruct rtz.
  - destruct (Np.set_item _ (-1) F64.zero) as [e | p5]; [discriminate H |].
    exact H.
  - exact H.
Qed.

(** X13. The shape of every returned pulse: the top level is 8191 or, when
    pulse_voltage < 0 and dc_voltage <= 0, -8191; the samples up to index
    100 are 0, the one at index 101 is half the top level, and the samples
    from index 102 to 299 (the end of the rise and the hold segment) are
    the top level; with return_to_zero the last sample is 0. *)
Theorem generate_pulse_sequence_shape :
  forall (pulse_voltage dc_voltage : F64.float) (return_to_zero : bool)
         (points : list F64.float),
    generate_pulse_sequence pulse_voltage dc_voltage return_to_zero = inr points ->
    let top := max_dac pulse_voltage dc_voltage in
    top = (if F64.ltb pulse_voltage F64.zero && F64.leb dc_voltage F64.zero
           then -8191 else 8191)
    /\ (forall i : Z, 0 <= i <= pulse_rise_start -> item points i = F64.zero)
    /\ item points (pulse_rise_start + 1) = F64.ratio top 2
    /\ (forall i : Z,
          pulse_rise_start + 2 <= i < pulse_fall_start ->
          item points i = F64.of_Z top)
    /\ (return_to_zero = true -> item points (total_num - 1) = F64.zero).
Proof.
  intros pv dc rtz points H top.
  destruct (generate_pulse_sequence_inv pv dc rtz points H)
    as (level & fall & rise & p1 & fl & p3 & Hd & Hf & Hr & H1 & Hl & H3 & Hp).
  assert (Hfall : 0 <= fall) by (eapply linspace_num_nonneg; exact Hl).
  change pulse_rise_start with 100 in *. change pulse_rise_end with 103 in *.
  change pulse_hold_start with 103 in *. change pulse_hold_end with 300 in *.
  change pulse_fall_start with 300 in *. change total_num with 20000.
  fold top in Hr, Hl, H3.
  set (p2 := Np.fill_slice p1 103 (Some 300) (F64.of_Z top)) in *.
  set (p4 := Np.fill_slice p3 (300 + fall) None (F64.of_Z level)) in *.
  assert (Hlen1 : Z.of_nat (List.length p1) = 20000).
  { rewrite (set_slice_length _ _ _ _ _ H1). exact zeros_length. }
  assert (Hlen2 : Z.of_nat (List.length p2) = 20000).
  { subst p2. rewrite fill_slice_length. exact Hlen1. }
  assert (Hlen3 : Z.of_nat (List.length p3) = 20000).
  { rewrite (set_slice_length _ _ _ _ _ H3). exact Hlen2. }
  assert (Hlen4 : Z.of_nat (List.length p4) = 20000).
  { subst p4. rewrite fill_slice_length. exact Hlen3. }
  assert (Hrise : rise = [F64.zero; F64.ratio top 2; F64.of_Z top]).
  { destruct (max_dac_cases pv dc) as [Hm | Hm]; fold top in Hm; rewrite Hm in Hr |- *;
      vm_compute in Hr; injection Hr as <-; vm_compute; reflexivity. }
  (* the samples below index 300 after the rise and hold assignments *)
  assert (Hp1 : forall i : Z, 0 <= i < 100 -> item p1 i = F64.zero).
  { intros i Hi. rewrite (set_slice_item_below _ _ _ _ _ i H1).
    - apply zeros_item. unfold total_num. lia.
    - lia.
    - rewrite zeros_length. unfold total_num. lia. }
  assert (Hp1r : forall i : Z, 100 <= i < 103 ->
                   item p1 i = nth (Z.to_nat (i - 100)) rise F64.nan).
  { intros i Hi. replace i with (100 + (i - 100)) at 1 by lia.
    apply (set_slice_item_inside _ _ _ _ 103 (i - 100) H1).
    - lia.
    - rewrite zeros_length. unfold total_num. lia.
    - rewrite Hrise. reflexivity.
    - lia. }
  assert (Hp2 : forall i : Z, 0 <= i < 103 -> item p2 i = item p1 i).
  { intros i Hi. subst p2. apply fill_slice_item_below; lia. }
  assert (Hp2h : forall i : Z, 103 <= i < 300 -> item p2 i = F64.of_Z top).
  { intros i Hi. subst p2. apply fill_slice_item_inside; lia. }
  assert (Hp4 : forall i : Z, 0 <= i < 300 -> item p4 i = item p2 i).
  { intros i Hi. subst p4. rewrite fill_slice_item_below by lia.
    apply (set_slice_item_below _ _ _ _ _ i H3); lia. }
  assert (Hpts : forall i : Z, 0 <= i < 300 -> item points i = item p2 i).
  { intros i Hi. rewrite <- Hp4 by exact Hi. destruct rtz.
    - apply (set_item_other _ _ _ _ i Hp); [lia |].
      rewrite Hlen4. change (-1 <? 0) with true. cbv iota. lia.
    - injection Hp as <-. reflexivity. }
  split; [reflexivity |]. split; [| split; [| split]].
  - intros i Hi. rewrite Hpts, Hp2 by lia.
    destruct (Z.eq_dec i 100) as [-> | Hne].
    + rewrite (Hp1r 100) by lia. rewrite Hrise. reflexivity.
    + apply Hp1. lia.
  - change (100 + 1) with 101.
    rewrite Hpts, Hp2 by lia. rewrite (Hp1r 101) by lia. rewrite Hrise. reflexivity.
  - intros i Hi. rewrite Hpts by lia.
    destruct (Z.eq_dec i 102) as [-> | Hne].
    + rewrite Hp2 by lia. rewrite (Hp1r 102) by lia. rewrite Hrise. reflexivity.
    + apply Hp2h. lia.
  - intros ->. pose proof (set_item_at _ _ (-1) _ Hp) as Hlast.
    rewrite Hlen4 in Hlast. exact Hlast.
Qed.

Lemma pulse_m4_m1_returns :
  is_error (generate_pulse_sequence (F64.of_Z (-4)) (F64.of_Z (-1)) true) = false.
Proof. vm_compute. reflexivity. Qed.

Lemma generate_pulse_sequence_shape_witness :
  exists points : list F64.float,
    generate_pulse_sequence (F64.of_Z (-4)) (F64.of_Z (-1)) true = inr points
    /\ item points 101 = F64.opp (F64.ratio 8191 2)
    /\ item points 250 = F64.of_Z (-8191)
    /\ item points 19999 = F64.zero.
Proof.
  destruct (generate_pulse_sequence (F64.of_Z (-4)) (F64.of_Z (-1)) true)
    as [e | points] eqn:E.
  - exfalso. pose proof pulse_m4_m1_returns as H. rewrite E in H. discriminate H.
  - exists points. split; [reflexivity |].
    destruct (generate_pulse_sequence_shape _ _ _ _ E) as (_ & _ & H101 & Hhold & Hlast).
    split; [exact H101 | split].
    + apply Hhold. vm_compute. split; [discriminate | reflexivity].
    + apply Hlast. reflexivity.
Defined.

(** ** The formatter: errors and composition *)

Lemma py_map_is_error {A B : Type} (f : A -> result B) (xs : list A) :
  is_error (Py.map f xs) = existsb (fun x => is_error (f x)) xs.
Proof.
  induction xs as [| x xs IH]; simpl; [reflexivity |].
  destruct (f x) as [e | y]; simpl; [reflexivity |].
  rewrite <- IH. destruct (Py.map f xs); reflexivity.
Qed.

Lemma round_is_error (x : F64.float) :
  is_error (Py.round x) = negb (F64.is_finite x).
Proof. destruct x; reflexivity. Qed.

(** X14. [array_to_string] raises exactly when some element is a NaN or an
    infinity ([round] cannot convert it); every array of finite numbers,
    the empty one included (which gives the empty string), is rendered. *)
Theorem array_to_string_fails_iff_non_finite :
  forall array : list F64.float,
    is_error (array_to_string array) = negb (forallb F64.is_finite array)
    /\ array_to_string [] = inr EmptyString.
Proof.
  intros array. split; [| reflexivity].
  unfold array_to_string.
  assert (H : is_error (Py.map (fun x => (let? r := Py.round x in ok (Py.str r))%result)
                               array)
              = negb (forallb F64.is_finite array)).
  { rewrite py_map_is_error. induction array as [| x xs IH]; simpl; [reflexivity |].
    rewrite IH, negb_andb. f_equal.
    rewrite <- round_is_error. destruct (Py.round x); reflexivity. }
  rewrite <- H. destruct (Py.map _ array); reflexivity.
Qed.

Lemma py_map_app {A B : Type} (f : A -> result B) (xs ys : list A) :
  Py.map f (xs ++ ys)
  = (let? a := Py.map f xs in let? b := Py.map f ys in ok (a ++ b))%result.
Proof.
  induction xs as [| x xs IH]; simpl.
  - destruct (Py.map f ys); reflexivity.
  - destruct (f x) as [e | y]; simpl; [reflexivity |].
    rewrite IH. destruct (Py.map f xs) as [e | a]; simpl; [reflexivity |].
    destruct (Py.map f ys); reflexivity.
Qed.

Lemma py_map_length {A B : Type} (f : A -> result B) (xs : list A) (ys : list B) :
  Py.map f xs = inr ys -> List.length ys = List.length xs.
Proof.
  revert ys. induction xs as [| x xs IH]; simpl; intros ys H.
  - injection H as <-. reflexivity.
  - destruct (f x) as [e | y]; simpl in H; [discriminate H |].
    destruct (Py.map f xs) as [e | zs]; simpl in H; [discriminate H |].
    injection H as <-. simpl. f_equal. apply IH. reflexivity.
Qed.

Lemma string_append_assoc (a b c : string) :
  ((a ++ b) ++ c = a ++ (b ++ c))%string.
Proof. induction a as [| ch a IH]; simpl; [reflexivity | now rewrite IH]. Qed.

Lemma join_app (sep : string) (xs ys : list string) :
  xs <> [] -> ys <> [] ->
  Py.join sep (xs ++ ys) = (Py.join sep xs ++ sep ++ Py.join sep ys)%string.
Proof.
  unfold Py.join. intros Hx Hy.
  induction xs as [| x xs IH]; [contradiction |].
  destruct xs as [| x' xs].
  - simpl. destruct ys as [| y ys]; [contradiction | reflexivity].
  - change (String.concat sep ((x :: x' :: xs) ++ ys))
      with (x ++ sep ++ String.concat sep ((x' :: xs) ++ ys))%string.
    rewrite IH by discriminate.
    change (String.concat sep (x :: x' :: xs))
      with (x ++ sep ++ String.concat sep (x' :: xs))%string.
    rewrite !string_append_assoc. reflexivity.
Qed.

(** X15. Rendering distributes over concatenation: if two non-empty arrays
    render to [sa] and [sb], their concatenation renders to [sa], a comma,
    [sb]. *)
Theorem array_to_string_app :
  forall (a b : list F64.float) (sa sb : string),
    a <> [] -> b <> [] ->
    array_to_string a = inr sa ->
    array_to_string b = inr sb ->
    array_to_string (a ++ b) = inr (sa ++ "," ++ sb)%string.
Proof.
  intros a b sa sb Ha Hb. unfold array_to_string.
  rewrite py_map_app.
  destruct (Py.map _ a) as [e | pa] eqn:Ea; simpl; [discriminate |].
  destruct (Py.map _ b) as [e | pb] eqn:Eb; simpl; [discriminate |].
  intros H1 H2. injection H1 as <-. injection H2 as <-.
  unfold ok. f_equal. apply join_app.
  - intros ->. apply py_map_length in Ea. destruct a; [contradiction | discriminate Ea].
  - intros ->. apply py_map_length in Eb. destruct b; [contradiction | discriminate Eb].
Qed.

Lemma array_to_string_app_witness :
  array_to_string ([F64.ratio 14 10; F64.ratio 26 10] ++ [F64.opp (F64.ratio 35 10)])
  = inr ("1,3" ++ "," ++ "-4")%string.
Proof.
  apply array_to_string_app; [discriminate | discriminate | | ];
    vm_compute; reflexivity.
Defined.

Lemma rbind_ok_r {A : Type} (r : result A) :
  (let? x := r in ok x)%result = r.
Proof. destruct r; reflexivity. Qed.

(** X16. [return_to_zero] only overwrites the last sample: calling with
    [return_to_zero=True] is calling with [False] and then setting
    [points[-1] = 0]; the flag never changes whether the call raises, nor
    which error, nor any other sample. *)
Theorem return_to_zero_only_sets_last_sample :
  forall (pulse_voltage dc_voltage : F64.float),
    generate_pulse_sequence pulse_voltage dc_voltage true
    = (let? points := generate_pulse_sequence pulse_voltage dc_voltage false in
       Np.set_item points (-1) F64.zero)%result
    /\ match generate_pulse_sequence pulse_voltage dc_voltage false with
       | inl e => generate_pulse_sequence pulse_voltage dc_voltage true = inl e
       | inr points =>
           exists points' : list F64.float,
             generate_pulse_sequence pulse_voltage dc_voltage true = inr points'
             /\ List.length points' = List.length points
             /\ item points' (total_num - 1) = F64.zero
             /\ forall i : Z, 0 <= i < total_num - 1 -> item points' i = item points i
       end.
Proof.
  intros pv dc.
  assert (Heq : generate_pulse_sequence pv dc true
                = (let? points := generate_pulse_sequence pv dc false in
                   Np.set_item points (-1) F64.zero)%result).
  { unfold generate_pulse_sequence. cbv zeta.
    destruct (dc_dac pv dc) as [e | level]; cbn [rbind]; [reflexivity |].
    destruct (fall_num pv dc) as [e | fall]; cbn [rbind]; [reflexivity |].
    destruct (Np.linspace (F64.of_Z 0) (F64.of_Z (max_dac pv dc)) rise_num)
      as [e | rise]; cbn [rbind]; [reflexivity |].
    destruct (Np.set_slice (Np.zeros total_num) pulse_rise_start pulse_rise_end rise)
      as [e | p1]; cbn [rbind]; [reflexivity |].
    destruct (Np.linspace (F64.of_Z (max_dac pv dc)) (F64.of_Z level) fall)
      as [e | fl]; cbn [rbind]; [reflexivity |].
    destruct (Np.set_slice
                (Np.fill_slice p1 pulse_hold_start (Some pulse_hold_end)
                               (F64.of_Z (max_dac pv dc)))
                pulse_fall_start (pulse_fall_start + fall) fl)
      as [e | p3]; cbn [rbind]; [reflexivity |].
    unfold ok at 2. cbn [rbind]. apply rbind_ok_r. }
  split; [exact Heq |].
  destruct (generate_pulse_sequence pv dc false) as [e | points] eqn:E.
  - rewrite Heq. reflexivity.
  - rewrite Heq. unfold rbind.
    assert (Hlen : Z.of_nat (List.length points) = 20000).
    { destruct (generate_pulse_sequence_inv pv dc false points E)
        as (level & fall & rise & p1 & fl & p3 & _ & _ & _ & H1 & _ & H3 & Hp).
      injection Hp as <-. rewrite fill_slice_length.
      rewrite (set_slice_length _ _ _ _ _ H3), fill_slice_length.
      rewrite (set_slice_length _ _ _ _ _ H1). exact zeros_length. }
    destruct (Np.set_item points (-1) F64.zero) as [e | points'] eqn:Es.
    + exfalso. revert Es. unfold Np.set_item. rewrite Hlen. discriminate.
    + exists points'. split; [reflexivity |]. split; [| split].
      * apply (set_item_length _ _ _ _ Es).
      * pose proof (set_item_at _ _ (-1) _ Es) as Hlast.
        rewrite Hlen in Hlast. exact Hlast.
      * intros i Hi. change total_num with 20000 in Hi.
        apply (set_item_other _ _ _ _ i Es); [lia |].
        rewrite Hlen. change (-1 <? 0) with true. cbv iota. lia.
Qed.
